(** * Shallow embedding of backend/app/main.py (MTG card database proxy)

    The FastAPI handlers [search_cards], [get_card_printings],
    [get_cache_stats] and [clear_cache] are modelled as functions that take
    the module-level [cache] dict explicitly and return it updated, together
    with the outcome of the handler and the list of upstream requests the
    handler issued.  The calls to [datetime.now()] are passed in as explicit
    time values (microseconds), and the upstream Scryfall API is a function
    from requests to responses. *)

From Stdlib Require Import String Ascii List ZArith Bool Lia.
From Stdlib Require Import Sorting.Sorted Sorting.Permutation.
Import ListNotations.
Local Open Scope Z_scope.
Local Open Scope string_scope.
Set Warnings "-register-all".

(** ** Python values *)

(** JSON values as produced by [response.json()]; a dict is an association
    list in insertion order. *)
Inductive json : Type :=
| JNull
| JBool (b : bool)
| JNum (z : Z)
| JStr (s : string)
| JArr (l : list json)
| JObj (kv : list (string * json)).

(** Python exceptions that the modelled code can raise. *)
Inductive py_exc : Type :=
| TypeError
| AttributeError
| IndexError
| ValueError.

(** A computation that returns a value or raises. *)
Inductive res (A : Type) : Type :=
| Ok (a : A)
| Err (e : py_exc).
Arguments Ok {A} a.
Arguments Err {A} e.

Definition bind {A B} (m : res A) (k : A -> res B) : res B :=
  match m with
  | Ok a => k a
  | Err e => Err e
  end.

Notation "x <- m ;; k" := (bind m (fun x => k))
  (at level 61, m at next level, right associativity).

(** Truthiness of a value ([if x:], [not x], [x or y]). *)
Definition truthy (v : json) : bool :=
  match v with
  | JNull => false
  | JBool b => b
  | JNum z => negb (Z.eqb z 0)
  | JStr s => negb (String.eqb s EmptyString)
  | JArr l => match l with [] => false | _ => true end
  | JObj kv => match kv with [] => false | _ => true end
  end.

Fixpoint lookup_kv (k : string) (kv : list (string * json)) : option json :=
  match kv with
  | [] => None
  | (k', v) :: kv' => if String.eqb k k' then Some v else lookup_kv k kv'
  end.

(** [d.get(k, dflt)] on a dict. *)
Definition kv_get (kv : list (string * json)) (k : string) (dflt : json) : json :=
  match lookup_kv k kv with Some v => v | None => dflt end.

(** [o.get(k, dflt)]; [.get] on anything but a dict raises AttributeError. *)
Definition dget (o : json) (k : string) (dflt : json) : res json :=
  match o with
  | JObj kv => Ok (kv_get kv k dflt)
  | _ => Err AttributeError
  end.

(** [a or b], [a] evaluated first. *)
Definition py_or (a b : res json) : res json :=
  x <- a;; if truthy x then Ok x else b.

(** [len(x)]. *)
Definition py_len (v : json) : res nat :=
  match v with
  | JArr l => Ok (List.length l)
  | JStr s => Ok (String.length s)
  | JObj kv => Ok (List.length kv)
  | _ => Err TypeError
  end.

(** [x[n]] for an integer index.  Only lists are indexed here: indexing a
    dict by an int raises KeyError, and indexing a string yields a string on
    which the following [.get] raises; either way the handler ends in its
    generic [except Exception] branch, so both are folded into one error. *)
Definition py_index (v : json) (n : nat) : res json :=
  match v with
  | JArr l => match nth_error l n with Some x => Ok x | None => Err IndexError end
  | _ => Err TypeError
  end.

(** [for x in v]: a dict iterates over its keys, a string over its
    characters. *)
Definition py_iter (v : json) : res (list json) :=
  match v with
  | JArr l => Ok l
  | JObj kv => Ok (map (fun p => JStr (fst p)) kv)
  | JStr s => Ok (map (fun c => JStr (String c EmptyString)) (list_ascii_of_string s))
  | _ => Err TypeError
  end.

Fixpoint map_m {A B} (f : A -> res B) (l : list A) : res (list B) :=
  match l with
  | [] => Ok []
  | x :: l' => y <- f x;; ys <- map_m f l';; Ok (y :: ys)
  end.

(** A dict literal: values are evaluated in order, the first exception
    propagates. *)
Fixpoint seq_fields (fs : list (string * res json)) : res (list (string * json)) :=
  match fs with
  | [] => Ok []
  | (k, r) :: fs' => v <- r;; rest <- seq_fields fs';; Ok ((k, v) :: rest)
  end.

Definition mk_obj (fs : list (string * res json)) : res json :=
  kv <- seq_fields fs;; Ok (JObj kv).

(** ** Strings

    A character is a Rocq [ascii].  [upper], [lower] and [strip] below are
    Python's [str.upper], [str.lower] and [str.strip] on text made of ASCII
    characters (code points below 128); Python's Unicode case mapping and
    whitespace beyond ASCII (for instance ['\u00df'.upper() == 'SS']) are not
    modelled, so statements that depend on them assume ASCII input
    ([is_ascii_str]). *)

Definition ascii_upper (c : ascii) : ascii :=
  let n := nat_of_ascii c in
  if (97 <=? n)%nat && (n <=? 122)%nat then ascii_of_nat (n - 32) else c.

Definition ascii_lower (c : ascii) : ascii :=
  let n := nat_of_ascii c in
  if (65 <=? n)%nat && (n <=? 90)%nat then ascii_of_nat (n + 32) else c.

(** [str.isspace] on ASCII: \t \n \v \f \r, \x1c-\x1f and space. *)
Definition is_space (c : ascii) : bool :=
  let n := nat_of_ascii c in
  ((9 <=? n)%nat && (n <=? 13)%nat) || ((28 <=? n)%nat && (n <=? 32)%nat).

Fixpoint map_str (f : ascii -> ascii) (s : string) : string :=
  match s with
  | EmptyString => EmptyString
  | String c s' => String (f c) (map_str f s')
  end.

(** [s.upper()], [s.lower()] on ASCII text. *)
Definition upper (s : string) : string := map_str ascii_upper s.
Definition lower (s : string) : string := map_str ascii_lower s.

Fixpoint lstrip (s : string) : string :=
  match s with
  | EmptyString => EmptyString
  | String c s' => if is_space c then lstrip s' else s
  end.

Fixpoint rstrip (s : string) : string :=
  match s with
  | EmptyString => EmptyString
  | String c s' =>
      let r := rstrip s' in
      if String.eqb r EmptyString && is_space c then EmptyString else String c r
  end.

(** [s.strip()] on ASCII text. *)
Definition strip (s : string) : string := rstrip (lstrip s).

(** Every character is ASCII. *)
Definition is_ascii_str (s : string) : bool :=
  forallb (fun c => (nat_of_ascii c <? 128)%nat) (list_ascii_of_string s).

(** [None] or an ASCII string. *)
Definition opt_ascii (o : option string) : bool :=
  match o with Some s => is_ascii_str s | None => true end.

(** [A]-[Z] or [a]-[z]. *)
Definition is_ascii_letter (c : ascii) : bool :=
  let n := nat_of_ascii c in
  ((65 <=? n)%nat && (n <=? 90)%nat) || ((97 <=? n)%nat && (n <=? 122)%nat).

(** [s.split(sep)] for a one-character separator. *)
Fixpoint split_on (sep : ascii) (s : string) : list string :=
  match s with
  | EmptyString => [EmptyString]
  | String c s' =>
      let parts := split_on sep s' in
      if Ascii.eqb c sep then EmptyString :: parts
      else match parts with
           | p :: ps => String c p :: ps
           | [] => [String c EmptyString]
           end
  end.

(** [str(n)] for integers. *)
Fixpoint digits_aux (fuel : nat) (n : N) (acc : string) : string :=
  match fuel with
  | O => acc
  | S f =>
      let acc' := String (ascii_of_N (48 + N.modulo n 10)) acc in
      if (n <? 10)%N then acc' else digits_aux f (N.div n 10) acc'
  end.

Definition str_of_N (n : N) : string := digits_aux (S (N.size_nat n)) n EmptyString.

Definition str_of_Z (z : Z) : string :=
  if Z.ltb z 0 then append "-" (str_of_N (Z.to_N (- z))) else str_of_N (Z.to_N z).

Definition dquote : string := String "034"%char EmptyString.

(** ** Query parameters *)

(** [Optional[str]] query parameters: [if x:] is false for None and "". *)
Definition opt_truthy (o : option string) : bool :=
  match o with
  | Some s => negb (String.eqb s EmptyString)
  | None => false
  end.

(** [x or ""]. *)
Definition opt_or_empty (o : option string) : string :=
  match o with Some s => s | None => EmptyString end.

(** [get_cache_key]: f"search:{query}:{page}:{colors}:{types}:{rarity}". *)
Definition get_cache_key (query : string) (page : Z) (colors types rarity : string) : string :=
  String.concat ":" ["search"; query; str_of_Z page; colors; types; rarity].

(** The query builder of [search_cards] (lines 81-105): the tokens, before
    the wildcard fallback. *)
Definition build_search_parts (q colors types rarity : option string) : list string :=
  let text_part :=
    match q with
    | Some s => if opt_truthy q && negb (String.eqb (strip s) EmptyString) then [strip s] else []
    | None => []
    end in
  let color_part :=
    match colors with
    | Some c =>
        if opt_truthy colors then
          let color_list := map (fun x => upper (strip x)) (split_on "," c) in
          [append "c:" (String.concat "" color_list)]
        else []
    | None => []
    end in
  let type_part :=
    match types with
    | Some t =>
        if opt_truthy types then
          let type_list := map (fun x => lower (strip x)) (split_on "," t) in
          map (fun card_type => append "t:" card_type) type_list
        else []
    | None => []
    end in
  let rarity_part :=
    match rarity with
    | Some r => if opt_truthy rarity then [append "r:" (lower r)] else []
    | None => []
    end in
  app text_part (app color_part (app type_part rarity_part)).

(** [search_query = " ".join(search_parts)], with the wildcard appended
    when no token was produced. *)
Definition build_search_query (q colors types rarity : option string) : string :=
  let search_parts :=
    match build_search_parts q colors types rarity with
    | [] => ["*"]
    | ps => ps
    end in
  String.concat " " search_parts.

Example build_search_query_ex1 :
  build_search_query (Some " bolt ") (Some "r, u") (Some "Creature,INSTANT") (Some "Rare")
  = "bolt c:RU t:creature t:instant r:rare".
Proof. reflexivity. Qed.

Example get_cache_key_ex1 :
  get_cache_key "bolt" 12 "R,U" "" "" = "search:bolt:12:R,U::".
Proof. reflexivity. Qed.

(** ** The in-memory cache *)

(** [CACHE_DURATION = timedelta(minutes=10)], in microseconds. *)
Definition CACHE_DURATION : Z := 10 * 60 * 1000000.

(** [cache = {}]: key -> (data, timestamp), in insertion order. *)
Definition cache_t : Type := list (string * (json * Z)).

Fixpoint cache_lookup (k : string) (c : cache_t) : option (json * Z) :=
  match c with
  | [] => None
  | (k', e) :: c' => if String.eqb k k' then Some e else cache_lookup k c'
  end.

(** [del cache[k]]. *)
Definition cache_del (k : string) (c : cache_t) : cache_t :=
  filter (fun e => negb (String.eqb (fst e) k)) c.

(** [cache[k] = v]: an existing key keeps its position, a new key is
    appended. *)
Definition cache_set (k : string) (v : json * Z) (c : cache_t) : cache_t :=
  match cache_lookup k c with
  | Some _ => map (fun e => if String.eqb (fst e) k then (k, v) else e) c
  | None => app c [(k, v)]
  end.

(** [is_cache_valid(timestamp)], [now] being the value of [datetime.now()]. *)
Definition is_cache_valid (now timestamp : Z) : bool :=
  Z.ltb (now - timestamp) CACHE_DURATION.

(** The cache check at the head of both handlers (lines 70-76 and 281-286):
    a hit returns the cached data; an expired entry is deleted. *)
Definition cache_check (c : cache_t) (cache_key : string) (now : Z) : option json * cache_t :=
  match cache_lookup cache_key c with
  | Some (cached_data, timestamp) =>
      if is_cache_valid now timestamp then (Some cached_data, c)
      else (None, cache_del cache_key c)
  | None => (None, c)
  end.

(** [get_cache_stats]: [datetime.now()] is called once per entry; [clock i]
    is its value for the [i]-th entry. *)
Fixpoint stats_loop (clock : nat -> Z) (i : nat) (c : cache_t) (valid expired : nat) : nat * nat :=
  match c with
  | [] => (valid, expired)
  | (_, (_, timestamp)) :: c' =>
      if is_cache_valid (clock i) timestamp
      then stats_loop clock (S i) c' (S valid) expired
      else stats_loop clock (S i) c' valid (S expired)
  end.

(** The handler returns the stats and leaves the cache as it is;
    [cache_duration_minutes] is the float [10.0] in Python. *)
Definition get_cache_stats (clock : nat -> Z) (c : cache_t) : json * cache_t :=
  let '(valid_entries, expired_entries) := stats_loop clock 0 c 0 0 in
  (JObj [("total_entries", JNum (Z.of_nat (List.length c)));
         ("valid_entries", JNum (Z.of_nat valid_entries));
         ("expired_entries", JNum (Z.of_nat expired_entries));
         ("cache_duration_minutes", JNum (CACHE_DURATION / 60000000))], c).

(** [clear_cache]. *)
Definition clear_cache (c : cache_t) : json * cache_t :=
  (JObj [("message", JStr "Cache cleared successfully")], []).

(** ** Card normalization in [search_cards] (lines 138-204) *)

Definition normalize_card (card : json) : res json :=
  cf <- dget card "card_faces" JNull;;
  if truthy cf then
    faces <- dget card "card_faces" (JArr []);;
    front_face <- (if truthy faces then py_index faces 0 else Ok (JObj []));;
    n <- py_len faces;;
    back_face <- (if (1 <? n)%nat then py_index faces 1 else Ok JNull);;
    mk_obj
      [("id", dget card "id" JNull);
       ("name", dget card "name" JNull);
       ("mana_cost", py_or (dget front_face "mana_cost" JNull) (dget card "mana_cost" JNull));
       ("type_line", py_or (dget front_face "type_line" JNull) (dget card "type_line" JNull));
       ("oracle_text", py_or (dget front_face "oracle_text" JNull) (dget card "oracle_text" JNull));
       ("power", dget front_face "power" JNull);
       ("toughness", dget front_face "toughness" JNull);
       ("colors", dget card "colors" (JArr []));
       ("rarity", dget card "rarity" JNull);
       ("set_name", dget card "set_name" JNull);
       ("collector_number", dget card "collector_number" JNull);
       ("image_uris", py_or (dget front_face "image_uris" JNull) (dget card "image_uris" (JObj [])));
       ("scryfall_uri", dget card "scryfall_uri" JNull);
       ("prices", dget card "prices" (JObj []));
       ("has_multiple_faces", Ok (JBool true));
       ("card_faces",
         mk_obj
           [("front",
              mk_obj
                [("name", dget front_face "name" JNull);
                 ("mana_cost", dget front_face "mana_cost" JNull);
                 ("type_line", dget front_face "type_line" JNull);
                 ("oracle_text", dget front_face "oracle_text" JNull);
                 ("power", dget front_face "power" JNull);
                 ("toughness", dget front_face "toughness" JNull);
                 ("image_uris", dget front_face "image_uris" (JObj []))]);
            ("back",
              if truthy back_face then
                mk_obj
                  [("name", dget back_face "name" JNull);
                   ("mana_cost", dget back_face "mana_cost" JNull);
                   ("type_line", dget back_face "type_line" JNull);
                   ("oracle_text", dget back_face "oracle_text" JNull);
                   ("power", dget back_face "power" JNull);
                   ("toughness", dget back_face "toughness" JNull);
                   ("image_uris", dget back_face "image_uris" (JObj []))]
              else Ok JNull)])]
  else
    mk_obj
      [("id", dget card "id" JNull);
       ("name", dget card "name" JNull);
       ("mana_cost", dget card "mana_cost" JNull);
       ("type_line", dget card "type_line" JNull);
       ("oracle_text", dget card "oracle_text" JNull);
       ("power", dget card "power" JNull);
       ("toughness", dget card "toughness" JNull);
       ("colors", dget card "colors" (JArr []));
       ("rarity", dget card "rarity" JNull);
       ("set_name", dget card "set_name" JNull);
       ("collector_number", dget card "collector_number" JNull);
       ("image_uris", dget card "image_uris" (JObj []));
       ("scryfall_uri", dget card "scryfall_uri" JNull);
       ("prices", dget card "prices" (JObj []));
       ("has_multiple_faces", Ok (JBool false));
       ("card_faces", Ok JNull)].

(** The success payload of [search_cards] (lines 137-212). *)
Definition search_result (page : Z) (scryfall_data : json) : res json :=
  data <- dget scryfall_data "data" (JArr []);;
  items <- py_iter data;;
  cards <- map_m normalize_card items;;
  total <- dget scryfall_data "total_cards" (JNum 0);;
  has_more <- dget scryfall_data "has_more" (JBool false);;
  Ok (JObj [("data", JArr cards);
            ("total_cards", total);
            ("has_more", has_more);
            ("page", JNum page);
            ("next_page", if truthy has_more then JNum (page + 1) else JNull)]).

(** ** Printing normalization in [get_card_printings] (lines 316-349) *)

Definition printing_info (card : json) : res json :=
  image_uris0 <- dget card "image_uris" (JObj []);;
  cf <- dget card "card_faces" JNull;;
  uris <- (if negb (truthy image_uris0) && truthy cf then
             faces <- dget card "card_faces" (JArr []);;
             front_face <- (if truthy faces then py_index faces 0 else Ok (JObj []));;
             n <- py_len faces;;
             back_face <- (if (1 <? n)%nat then py_index faces 1 else Ok JNull);;
             iu <- dget front_face "image_uris" (JObj []);;
             biu <- (if truthy back_face then dget back_face "image_uris" (JObj []) else Ok (JObj []));;
             Ok (iu, biu)
           else Ok (image_uris0, JObj []));;
  let '(image_uris, back_image_uris) := uris in
  mk_obj
    [("id", dget card "id" JNull);
     ("name", dget card "name" JNull);
     ("set_name", dget card "set_name" JNull);
     ("set_code", dget card "set" JNull);
     ("collector_number", dget card "collector_number" JNull);
     ("released_at", dget card "released_at" JNull);
     ("rarity", dget card "rarity" JNull);
     ("artist", dget card "artist" JNull);
     ("flavor_text", dget card "flavor_text" JNull);
     ("image_uris", Ok image_uris);
     ("back_image_uris", Ok (if truthy back_image_uris then back_image_uris else JNull));
     ("prices", dget card "prices" (JObj []));
     ("scryfall_uri", dget card "scryfall_uri" JNull)].

(** [a < b] on sort keys: strings compare lexicographically, ints and bools
    numerically; any other pair (None, dicts, mixed types) raises TypeError.
    Lists as keys are not modelled (they raise here). *)
Definition py_num (v : json) : option Z :=
  match v with
  | JNum z => Some z
  | JBool b => Some (if b then 1 else 0)
  | _ => None
  end.

Definition py_lt (a b : json) : res bool :=
  match a, b with
  | JStr s, JStr t => Ok (String.ltb s t)
  | _, _ =>
      match py_num a, py_num b with
      | Some x, Some y => Ok (Z.ltb x y)
      | _, _ => Err TypeError
      end
  end.

(** [key=lambda x: x.get("released_at", "")]. *)
Definition released_key (x : json) : res json := dget x "released_at" (JStr "").

(** [list.sort(key=..., reverse=True)]: a stable sort into descending key
    order, comparing with [<] only.  Insertion sort: [x] stays in front of
    [y] unless [key x < key y]; equal keys keep their input order. *)
Fixpoint insert_desc (x : json) (ys : list json) : res (list json) :=
  match ys with
  | [] => Ok [x]
  | y :: ys' =>
      kx <- released_key x;;
      ky <- released_key y;;
      lt <- py_lt kx ky;;
      if lt then (r <- insert_desc x ys';; Ok (y :: r)) else Ok (x :: y :: ys')
  end.

Fixpoint sort_desc (l : list json) : res (list json) :=
  match l with
  | [] => Ok []
  | x :: l' => s <- sort_desc l';; insert_desc x s
  end.

Definition printings_result (card_name : string) (scryfall_data : json) : res json :=
  data <- dget scryfall_data "data" (JArr []);;
  items <- py_iter data;;
  printings <- map_m printing_info items;;
  sorted <- sort_desc printings;;
  Ok (JObj [("data", JArr sorted);
            ("total_printings", JNum (Z.of_nat (List.length sorted)));
            ("card_name", JStr card_name)]).

(** ** Handlers *)

Definition SCRYFALL_API_BASE : string := "https://api.scryfall.com".

(** An upstream call [client.get(url, params=..., timeout=...)]. *)
Record request : Type := {
  req_url : string;
  req_params : list (string * json);
  req_timeout : Z  (* seconds *)
}.

(** What the call gives back: a timeout ([httpx.TimeoutException]), or a
    response with its status code, its text and its body parsed as JSON
    ([None] when [response.json()] raises a ValueError).  Other transport
    errors of httpx, which the code turns into HTTP 500, are not modelled. *)
Inductive response : Type :=
| RespTimeout
| Resp (status_code : Z) (text : string) (body : option json).

(** How a handler ends: a returned payload, or a raised [HTTPException]. *)
Inductive outcome : Type :=
| Return (payload : json)
| Raise (status_code : Z) (detail : string).

(** The two [datetime.now()] readings of a handler: at the cache check and
    when the result is stored. *)
Record clock : Type := {
  t_check : Z;
  t_store : Z
}.

(** [response.raise_for_status()] passes only 2xx codes. *)
Definition is_success (status : Z) : bool := Z.leb 200 status && Z.ltb status 300.

(** [str(e)] of the caught exception is not modelled beyond its kind. *)
Definition exc_str (e : py_exc) : string :=
  match e with
  | TypeError => "TypeError"
  | AttributeError => "AttributeError"
  | IndexError => "IndexError"
  | ValueError => "ValueError"
  end.

Definition internal_error (e : py_exc) : outcome :=
  Raise 500 (append "Internal server error: " (exc_str e)).

Definition timeout_error : outcome := Raise 504 "Request to Scryfall API timed out".

(** The payload returned when no criterion is given (lines 60-66). *)
Definition no_criteria_payload (page : Z) : json :=
  JObj [("data", JArr []);
        ("total_cards", JNum 0);
        ("has_more", JBool false);
        ("page", JNum page);
        ("message", JStr "Please provide a search query or apply filters.")].

(** The payload of a 404 in [search_cards] (lines 122-128). *)
Definition search_not_found_payload (page : Z) : json :=
  JObj [("data", JArr []);
        ("total_cards", JNum 0);
        ("has_more", JBool false);
        ("page", JNum page);
        ("message", JStr "No cards found matching your search.")].

Definition search_request (q colors types rarity : option string) (page : Z) : request :=
  {| req_url := append SCRYFALL_API_BASE "/cards/search";
     req_params := [("q", JStr (build_search_query q colors types rarity));
                    ("page", JNum page);
                    ("format", JStr "json")];
     req_timeout := 10 |}.

(** [search_cards]: outcome, cache afterwards, upstream calls made. *)
Definition search_cards (upstream : request -> response) (clk : clock) (c : cache_t)
    (q : option string) (page : Z) (colors types rarity : option string)
    : outcome * cache_t * list request :=
  if negb (opt_truthy q) && negb (opt_truthy colors) && negb (opt_truthy types)
     && negb (opt_truthy rarity)
  then (Return (no_criteria_payload page), c, [])
  else
    let cache_key := get_cache_key (opt_or_empty q) page (opt_or_empty colors)
                       (opt_or_empty types) (opt_or_empty rarity) in
    match cache_check c cache_key (t_check clk) with
    | (Some cached_data, c1) => (Return cached_data, c1, [])
    | (None, c1) =>
        let req := search_request q colors types rarity page in
        match upstream req with
        | RespTimeout => (timeout_error, c1, [req])
        | Resp status text body =>
            if Z.eqb status 404 then
              let result := search_not_found_payload page in
              (Return result, cache_set cache_key (result, t_store clk) c1, [req])
            else if negb (is_success status) then
              (Raise status (append "Scryfall API error: " text), c1, [req])
            else
              match body with
              | None => (internal_error ValueError, c1, [req])
              | Some scryfall_data =>
                  match search_result page scryfall_data with
                  | Ok result => (Return result, cache_set cache_key (result, t_store clk) c1, [req])
                  | Err e => (internal_error e, c1, [req])
                  end
              end
        end
    end.

(** The payload of a 404 in [get_card_printings] (lines 304-308). *)
Definition printings_not_found_payload : json :=
  JObj [("data", JArr []);
        ("total_printings", JNum 0);
        ("message", JStr "No printings found for this card.")].

Definition printings_cache_key (card_name : string) : string :=
  append "printings:" (lower card_name).

Definition printings_request (card_name : string) : request :=
  {| req_url := append SCRYFALL_API_BASE "/cards/search";
     req_params := [("q", JStr (append "!" (append dquote (append card_name dquote))));
                    ("format", JStr "json");
                    ("unique", JStr "prints")];
     req_timeout := 15 |}.

(** [get_card_printings]. *)
Definition get_card_printings (upstream : request -> response) (clk : clock) (c : cache_t)
    (card_name : string) : outcome * cache_t * list request :=
  let cache_key := printings_cache_key card_name in
  match cache_check c cache_key (t_check clk) with
  | (Some cached_data, c1) => (Return cached_data, c1, [])
  | (None, c1) =>
      let req := printings_request card_name in
      match upstream req with
      | RespTimeout => (timeout_error, c1, [req])
      | Resp status text body =>
          if Z.eqb status 404 then
            let result := printings_not_found_payload in
            (Return result, cache_set cache_key (result, t_store clk) c1, [req])
          else if negb (is_success status) then
            (Raise status (append "Scryfall API error: " text), c1, [req])
          else
            match body with
            | None => (internal_error ValueError, c1, [req])
            | Some scryfall_data =>
                match printings_result card_name scryfall_data with
                | Ok result => (Return result, cache_set cache_key (result, t_store clk) c1, [req])
                | Err e => (internal_error e, c1, [req])
                end
            end
      end
  end.

(** Field of a dict-valued result. *)
Definition field (v : json) (k : string) : option json :=
  match v with
  | JObj kv => lookup_kv k kv
  | _ => None
  end.

Definition res_field (r : res json) (k : string) : option json :=
  match r with
  | Ok v => field v k
  | Err _ => None
  end.

(** * Properties *)

(** ** Cache lemmas *)

Lemma cache_lookup_del_same (k : string) (c : cache_t) :
  cache_lookup k (cache_del k c) = None.
Proof.
  induction c as [|[k' e] c IH]; simpl; [reflexivity|].
  destruct (String.eqb k' k) eqn:E; simpl.
  - exact IH.
  - rewrite String.eqb_sym, E. exact IH.
Qed.

Lemma cache_lookup_del_other (k k' : string) (c : cache_t) :
  k' <> k -> cache_lookup k' (cache_del k c) = cache_lookup k' c.
Proof.
  intros Hne. induction c as [|[k0 e] c IH]; simpl; [reflexivity|].
  destruct (String.eqb k0 k) eqn:E; simpl.
  - apply String.eqb_eq in E; subst k0.
    destruct (String.eqb k' k) eqn:E'; [apply String.eqb_eq in E'; congruence|].
    exact IH.
  - rewrite IH. reflexivity.
Qed.

Lemma cache_lookup_set_same (k : string) (v : json * Z) (c : cache_t) :
  cache_lookup k (cache_set k v c) = Some v.
Proof.
  unfold cache_set. destruct (cache_lookup k c) as [e|] eqn:L.
  - revert e L. induction c as [|[k' e'] c IH]; intros e L; simpl in *; [discriminate|].
    rewrite String.eqb_sym.
    destruct (String.eqb k k') eqn:E; simpl.
    + rewrite String.eqb_refl. reflexivity.
    + rewrite E. apply (IH e). exact L.
  - induction c as [|[k' e'] c IH]; simpl in *.
    + rewrite String.eqb_refl. reflexivity.
    + destruct (String.eqb k k'); [discriminate|]. apply IH. exact L.
Qed.

(** ** Statistics *)

Lemma stats_loop_counts (clock : nat -> Z) (c : cache_t) :
  forall i v e, exists a b,
    stats_loop clock i c v e = (v + a, e + b)%nat /\
    List.length c = (a + b)%nat.
Proof.
  induction c as [|[k [d ts]] c IH]; intros i v e; simpl.
  - exists 0%nat, 0%nat. split; [f_equal; lia | reflexivity].
  - destruct (is_cache_valid (clock i) ts).
    + destruct (IH (S i) (S v) e) as [a [b [H1 H2]]].
      exists (S a), b. split; [rewrite H1; f_equal; lia | lia].
    + destruct (IH (S i) v (S e)) as [a [b [H1 H2]]].
      exists a, (S b). split; [rewrite H1; f_equal; lia | lia].
Qed.

Lemma stats_loop_const (now : Z) (c : cache_t) :
  forall i v e,
    stats_loop (fun _ => now) i c v e =
    (v + List.length (filter (fun en => is_cache_valid now (snd (snd en))) c),
     e + List.length (filter (fun en => negb (is_cache_valid now (snd (snd en)))) c))%nat.
Proof.
  induction c as [|[k [d ts]] c IH]; intros i v e; simpl.
  - f_equal; lia.
  - destruct (is_cache_valid now ts); simpl; rewrite IH; f_equal; lia.
Qed.

Lemma stats_loop_clock_const (clock : nat -> Z) (now : Z) :
  (forall i, clock i = now) ->
  forall c i v e, stats_loop clock i c v e = stats_loop (fun _ => now) i c v e.
Proof.
  intros Hclk c. induction c as [|[k [d ts]] c IH]; intros i v e; simpl; [reflexivity|].
  rewrite Hclk. destruct (is_cache_valid now ts); apply IH.
Qed.

(** ** Query builder lemma *)

Lemma split_on_not_nil (sep : ascii) (s : string) : split_on sep s <> [].
Proof.
  destruct s as [|c s']; simpl; [discriminate|].
  destruct (Ascii.eqb c sep); [discriminate|].
  destruct (split_on sep s'); discriminate.
Qed.

Lemma build_search_parts_empty_iff (q colors types rarity : option string) :
  build_search_parts q colors types rarity = [] <->
  (match q with None => True | Some s => strip s = EmptyString end) /\
  opt_truthy colors = false /\ opt_truthy types = false /\ opt_truthy rarity = false.
Proof.
  unfold build_search_parts.
  assert (Hq : (match q with
                | Some s => if opt_truthy q && negb (String.eqb (strip s) EmptyString)
                            then [strip s] else []
                | None => [] end = []) <->
               match q with None => True | Some s => strip s = EmptyString end).
  { destruct q as [s|]; [|tauto]. unfold opt_truthy.
    destruct (String.eqb s EmptyString) eqn:E1.
    - apply String.eqb_eq in E1. subst s. simpl. tauto.
    - destruct (String.eqb (strip s) EmptyString) eqn:E2; simpl.
      + apply String.eqb_eq in E2. tauto.
      + apply String.eqb_neq in E2. split; [discriminate | tauto]. }
  assert (Hc : (match colors with
                | Some c => if opt_truthy colors
                            then [append "c:" (String.concat "" (map (fun x => upper (strip x)) (split_on "," c)))]
                            else []
                | None => [] end = []) <-> opt_truthy colors = false).
  { destruct colors as [cs|]; simpl; [|tauto].
    destruct (negb (String.eqb cs EmptyString)); split; congruence. }
  assert (Ht : (match types with
                | Some t => if opt_truthy types
                            then map (fun card_type => append "t:" card_type) (map (fun x => lower (strip x)) (split_on "," t))
                            else []
                | None => [] end = []) <-> opt_truthy types = false).
  { destruct types as [ts|]; simpl; [|tauto].
    destruct (negb (String.eqb ts EmptyString)); [|tauto]. split; [|discriminate].
    intros H. apply map_eq_nil, map_eq_nil in H. exfalso. exact (split_on_not_nil _ _ H). }
  assert (Hr : (match rarity with
                | Some r => if opt_truthy rarity then [append "r:" (lower r)] else []
                | None => [] end = []) <-> opt_truthy rarity = false).
  { destruct rarity as [rs|]; simpl; [|tauto].
    destruct (negb (String.eqb rs EmptyString)); split; congruence. }
  split.
  - intros H. apply app_eq_nil in H as [H1 H]. apply app_eq_nil in H as [H2 H].
    apply app_eq_nil in H as [H3 H4]. tauto.
  - intros [H1 [H2 [H3 H4]]].
    apply Hq in H1. apply Hc in H2. apply Ht in H3. apply Hr in H4.
    rewrite H1, H2, H3, H4. reflexivity.
Qed.

(** ** C4 *)

(** C4: with the text query, colors, types and rarity all absent,
    [search_cards] returns the empty payload (no data, zero total,
    [has_more] false, a fixed message), issues no upstream request and
    leaves the cache as it was. *)
Theorem search_cards_no_filters_short_circuit :
  forall (upstream : request -> response) (clk : clock) (c : cache_t) (page : Z),
    search_cards upstream clk c None page None None None
      = (Return (no_criteria_payload page), c, []) /\
    field (no_criteria_payload page) "data" = Some (JArr []) /\
    field (no_criteria_payload page) "total_cards" = Some (JNum 0) /\
    field (no_criteria_payload page) "has_more" = Some (JBool false) /\
    field (no_criteria_payload page) "message"
      = Some (JStr "Please provide a search query or apply filters.").
Proof. intros. repeat split. Qed.

(** ** C5 *)

(** C5: the cache read returns the stored payload exactly when the key is
    present and the entry's age [now - timestamp] is below
    [CACHE_DURATION], leaving the cache unchanged on a hit; an entry of age
    at least [CACHE_DURATION] is a miss and is removed, other keys being
    untouched. *)
Theorem cache_check_ttl :
  forall (c : cache_t) (key : string) (now : Z),
    (forall p, fst (cache_check c key now) = Some p <->
               exists ts, cache_lookup key c = Some (p, ts) /\ now - ts < CACHE_DURATION) /\
    (forall p, fst (cache_check c key now) = Some p -> snd (cache_check c key now) = c) /\
    (forall p ts, cache_lookup key c = Some (p, ts) -> now - ts >= CACHE_DURATION ->
       fst (cache_check c key now) = None /\
       cache_lookup key (snd (cache_check c key now)) = None /\
       (forall k', k' <> key -> cache_lookup k' (snd (cache_check c key now)) = cache_lookup k' c)).
Proof.
  intros c key now. unfold cache_check, is_cache_valid.
  split; [|split].
  - intros p. destruct (cache_lookup key c) as [[d ts]|].
    + destruct (Z.ltb_spec (now - ts) CACHE_DURATION); simpl; split.
      * intros H'; injection H' as <-. eauto.
      * intros [ts' [H1 H2]]. injection H1 as <- <-. reflexivity.
      * discriminate.
      * intros [ts' [H1 H2]]. injection H1 as <- <-. lia.
    + simpl. split; [discriminate | intros [ts [H _]]; discriminate].
  - intros p. destruct (cache_lookup key c) as [[d ts]|]; [|discriminate].
    destruct (Z.ltb_spec (now - ts) CACHE_DURATION); simpl; [reflexivity | discriminate].
  - intros p ts L Hage. rewrite L.
    destruct (Z.ltb_spec (now - ts) CACHE_DURATION); [lia|]. simpl.
    split; [reflexivity|split].
    + apply cache_lookup_del_same.
    + intros k' Hne. apply cache_lookup_del_other. exact Hne.
Qed.

(** ** C8 *)

(** C8: when no filter produces a token -- the text query absent or blank
    after stripping, colors, types and rarity falsy -- the query built is
    the single wildcard ["*"]. *)
Theorem build_search_query_wildcard :
  forall (q colors types rarity : option string),
    (match q with None => True | Some s => strip s = EmptyString end) ->
    opt_truthy colors = false -> opt_truthy types = false -> opt_truthy rarity = false ->
    build_search_parts q colors types rarity = [] /\
    build_search_query q colors types rarity = "*".
Proof.
  intros q colors types rarity Hq Hc Ht Hr.
  assert (H : build_search_parts q colors types rarity = [])
    by (apply build_search_parts_empty_iff; auto).
  split; [exact H|]. unfold build_search_query. rewrite H. reflexivity.
Qed.

Lemma build_search_query_wildcard_witness :
  strip "   " = EmptyString /\ build_search_query (Some "   ") None None None = "*" /\
  search_request (Some "   ") None None None 1 =
    {| req_url := "https://api.scryfall.com/cards/search";
       req_params := [("q", JStr "*"); ("page", JNum 1); ("format", JStr "json")];
       req_timeout := 10 |}.
Proof.
  split; [reflexivity|]. split.
  - apply (build_search_query_wildcard (Some "   ") None None None);
      reflexivity.
  - reflexivity.
Defined.

(** ** C9 *)

(** C9: [get_cache_stats] leaves the cache unchanged and reports
    [total_entries = valid_entries + expired_entries]; with one reading
    [now] of the clock, the valid entries are those with
    [now - timestamp < CACHE_DURATION] and the expired ones the others. *)
Theorem get_cache_stats_counts :
  forall (clock : nat -> Z) (c : cache_t),
    snd (get_cache_stats clock c) = c /\
    exists v e : nat,
      field (fst (get_cache_stats clock c)) "total_entries" = Some (JNum (Z.of_nat (List.length c))) /\
      field (fst (get_cache_stats clock c)) "valid_entries" = Some (JNum (Z.of_nat v)) /\
      field (fst (get_cache_stats clock c)) "expired_entries" = Some (JNum (Z.of_nat e)) /\
      List.length c = (v + e)%nat /\
      (forall now, (forall i, clock i = now) ->
         v = List.length (filter (fun en => is_cache_valid now (snd (snd en))) c) /\
         e = List.length (filter (fun en => negb (is_cache_valid now (snd (snd en)))) c)).
Proof.
  intros clock c. unfold get_cache_stats.
  destruct (stats_loop_counts clock c 0 0 0) as [a [b [H1 H2]]].
  rewrite H1. simpl. split; [reflexivity|].
  exists a, b. refine (conj eq_refl (conj eq_refl (conj eq_refl (conj H2 _)))).
  intros now Hclk.
  rewrite (stats_loop_clock_const clock now Hclk), stats_loop_const in H1. injection H1 as Ha Hb. split; lia.
Qed.

(** ** Card normalization lemmas *)

Lemma kv_get_some (kv : list (string * json)) (k : string) (v d : json) :
  lookup_kv k kv = Some v -> kv_get kv k d = v.
Proof. unfold kv_get. intros ->. reflexivity. Qed.

(** The normalized back face for the entries after the front face. *)
Definition back_of (rest : list json) : json :=
  match rest with
  | JObj b :: _ =>
      match b with
      | [] => JNull
      | _ =>
          JObj [("name", kv_get b "name" JNull);
                ("mana_cost", kv_get b "mana_cost" JNull);
                ("type_line", kv_get b "type_line" JNull);
                ("oracle_text", kv_get b "oracle_text" JNull);
                ("power", kv_get b "power" JNull);
                ("toughness", kv_get b "toughness" JNull);
                ("image_uris", kv_get b "image_uris" (JObj []))]
      end
  | _ => JNull
  end.

Definition pick (a b : json) : json := if truthy a then a else b.

Lemma normalize_card_faces_ok (kv f : list (string * json)) (rest : list json) (out : json) :
  lookup_kv "card_faces" kv = Some (JArr (JObj f :: rest)) ->
  normalize_card (JObj kv) = Ok out ->
  out = JObj
    [("id", kv_get kv "id" JNull);
     ("name", kv_get kv "name" JNull);
     ("mana_cost", pick (kv_get f "mana_cost" JNull) (kv_get kv "mana_cost" JNull));
     ("type_line", pick (kv_get f "type_line" JNull) (kv_get kv "type_line" JNull));
     ("oracle_text", pick (kv_get f "oracle_text" JNull) (kv_get kv "oracle_text" JNull));
     ("power", kv_get f "power" JNull);
     ("toughness", kv_get f "toughness" JNull);
     ("colors", kv_get kv "colors" (JArr []));
     ("rarity", kv_get kv "rarity" JNull);
     ("set_name", kv_get kv "set_name" JNull);
     ("collector_number", kv_get kv "collector_number" JNull);
     ("image_uris", pick (kv_get f "image_uris" JNull) (kv_get kv "image_uris" (JObj [])));
     ("scryfall_uri", kv_get kv "scryfall_uri" JNull);
     ("prices", kv_get kv "prices" (JObj []));
     ("has_multiple_faces", JBool true);
     ("card_faces",
       JObj [("front",
               JObj [("name", kv_get f "name" JNull);
                     ("mana_cost", kv_get f "mana_cost" JNull);
                     ("type_line", kv_get f "type_line" JNull);
                     ("oracle_text", kv_get f "oracle_text" JNull);
                     ("power", kv_get f "power" JNull);
                     ("toughness", kv_get f "toughness" JNull);
                     ("image_uris", kv_get f "image_uris" (JObj []))]);
             ("back", back_of rest)])].
Proof.
  intros L H. unfold normalize_card in H. simpl in H.
  rewrite (kv_get_some _ _ _ JNull L) in H. simpl in H.
  rewrite (kv_get_some _ _ _ (JArr []) L) in H. simpl in H.
  unfold pick, back_of.
  destruct rest as [|x rest'];
    [|destruct x as [| | | | |[|p0 b0]]; simpl in H; try discriminate H];
  simpl in H;
  repeat match type of H with
  | context [truthy (kv_get ?a ?k ?d)] => destruct (truthy (kv_get a k d))
  | context [match ?b with true => _ | false => _ end] => destruct b
  end; simpl in H; try discriminate H;
  injection H as <-; reflexivity.
Qed.

Definition res_out (r : res json) : json :=
  match r with Ok v => v | Err _ => JNull end.

(** [card_info["card_faces"]["back"]]. *)
Definition back_field (out : json) : option json :=
  match field out "card_faces" with
  | Some cf => field cf "back"
  | None => None
  end.

(** ** C1 *)

Definition dfc_example_card : json :=
  JObj [("id", JStr "c1"); ("name", JStr "Front // Back");
        ("power", JStr ""); ("toughness", JStr "");
        ("card_faces", JArr [JObj [("name", JStr "Front"); ("power", JStr "2"); ("toughness", JStr "3")];
                             JObj [("name", JStr "Back")]])].

Definition top_level_cex_card : json :=
  JObj [("id", JStr "c2"); ("name", JStr "Front // Back");
        ("mana_cost", JStr "{R}"); ("power", JStr "5"); ("toughness", JStr "5");
        ("card_faces", JArr [JObj [("name", JStr "Front"); ("mana_cost", JStr "{U}")]])].

(** C1, as stated, fails: with both a top-level and a front-face
    [mana_cost], the front face's wins; a top-level [power] is dropped when
    the front face has none. *)
Lemma normalize_card_top_level_not_preferred :
  res_field (normalize_card top_level_cex_card) "mana_cost" = Some (JStr "{U}") /\
  field top_level_cex_card "mana_cost" = Some (JStr "{R}") /\
  res_field (normalize_card top_level_cex_card) "power" = Some JNull /\
  field top_level_cex_card "power" = Some (JStr "5").
Proof. vm_compute. repeat split. Qed.

(** C1 (amended): for a raw card whose faces array is a list starting with
    a dict, the normalized [mana_cost], [type_line], [oracle_text] and
    [image_uris] are the front face's value when it is truthy and the
    top-level value otherwise, while [power] and [toughness] are always the
    front face's; a card with empty top-level power/toughness and a front
    face with power 2 and toughness 3 normalizes to power 2, toughness 3. *)
Theorem normalize_card_front_face_first :
  (forall (kv f : list (string * json)) (rest : list json) (out : json),
     lookup_kv "card_faces" kv = Some (JArr (JObj f :: rest)) ->
     normalize_card (JObj kv) = Ok out ->
     field out "mana_cost" = Some (pick (kv_get f "mana_cost" JNull) (kv_get kv "mana_cost" JNull)) /\
     field out "type_line" = Some (pick (kv_get f "type_line" JNull) (kv_get kv "type_line" JNull)) /\
     field out "oracle_text" = Some (pick (kv_get f "oracle_text" JNull) (kv_get kv "oracle_text" JNull)) /\
     field out "power" = Some (kv_get f "power" JNull) /\
     field out "toughness" = Some (kv_get f "toughness" JNull) /\
     field out "image_uris" = Some (pick (kv_get f "image_uris" JNull) (kv_get kv "image_uris" (JObj [])))) /\
  res_field (normalize_card dfc_example_card) "power" = Some (JStr "2") /\
  res_field (normalize_card dfc_example_card) "toughness" = Some (JStr "3").
Proof.
  split.
  - intros kv f rest out L H.
    rewrite (normalize_card_faces_ok kv f rest out L H). simpl.
    repeat split.
  - vm_compute. split; reflexivity.
Qed.

Lemma normalize_card_front_face_first_witness :
  field (res_out (normalize_card top_level_cex_card)) "mana_cost"
    = Some (pick (JStr "{U}") (JStr "{R}")).
Proof.
  destruct normalize_card_front_face_first as [H _].
  apply (H [("id", JStr "c2"); ("name", JStr "Front // Back");
            ("mana_cost", JStr "{R}"); ("power", JStr "5"); ("toughness", JStr "5");
            ("card_faces", JArr [JObj [("name", JStr "Front"); ("mana_cost", JStr "{U}")]])]
           [("name", JStr "Front"); ("mana_cost", JStr "{U}")] []
           (res_out (normalize_card top_level_cex_card))); vm_compute; reflexivity.
Defined.

(** ** C7 *)

Definition second_face_empty_card : json :=
  JObj [("id", JStr "c3"); ("name", JStr "Front");
        ("card_faces", JArr [JObj [("name", JStr "Front")]; JObj []])].

Definition one_face_card : json :=
  JObj [("id", JStr "c4"); ("name", JStr "Front");
        ("card_faces", JArr [JObj [("name", JStr "Front"); ("power", JStr "1")]])].

(** C7, as stated, fails: a second face entry that is an empty dict is
    present in the raw input, yet [faces.back] is null. *)
Lemma normalize_card_empty_second_face_no_back :
  nth_error [JObj [("name", JStr "Front")]; JObj []] 1 = Some (JObj []) /\
  field second_face_empty_card "card_faces" = Some (JArr [JObj [("name", JStr "Front")]; JObj []]) /\
  back_field (res_out (normalize_card second_face_empty_card)) = Some JNull.
Proof. vm_compute. repeat split. Qed.

(** C7 (amended): for a raw card whose faces array is a list starting with
    a dict, [faces.back] is null when there is no second entry; in general
    it is an object (the second entry's name, mana_cost, type_line,
    oracle_text, power, toughness and image_uris) exactly when the second
    entry is a non-empty dict, and null otherwise. *)
Theorem normalize_card_back_face :
  forall (kv f : list (string * json)) (rest : list json) (out : json),
    lookup_kv "card_faces" kv = Some (JArr (JObj f :: rest)) ->
    normalize_card (JObj kv) = Ok out ->
    back_field out = Some (back_of rest) /\
    (rest = [] -> back_field out = Some JNull) /\
    (back_field out <> Some JNull <-> exists b rest', rest = JObj b :: rest' /\ b <> []).
Proof.
  intros kv f rest out L H.
  rewrite (normalize_card_faces_ok kv f rest out L H).
  unfold back_field. simpl.
  split; [reflexivity|]. split; [intros ->; reflexivity|].
  unfold back_of.
  destruct rest as [|x rest']; [split; [congruence | intros [b [r [E _]]]; discriminate]|].
  destruct x as [| | | | |b]; try (split; [congruence | intros [b' [r [E _]]]; discriminate]).
  destruct b as [|p b].
  - split; [congruence | intros [b' [r [E Hne]]]; injection E as E1 _; subst; congruence].
  - split; [intros _; exists (p :: b), rest'; split; [reflexivity | discriminate] | discriminate].
Qed.

Lemma normalize_card_back_face_witness :
  back_field (res_out (normalize_card one_face_card)) = Some JNull.
Proof.
  apply (normalize_card_back_face
           [("id", JStr "c4"); ("name", JStr "Front");
            ("card_faces", JArr [JObj [("name", JStr "Front"); ("power", JStr "1")]])]
           [("name", JStr "Front"); ("power", JStr "1")] []
           (res_out (normalize_card one_face_card))); vm_compute; reflexivity.
Defined.

(** ** Letter case *)

Ltac ascii_cases c :=
  destruct c as [[|] [|] [|] [|] [|] [|] [|] [|]]; reflexivity.

Lemma ascii_upper_lower (c : ascii) : ascii_upper (ascii_lower c) = ascii_upper c.
Proof. ascii_cases c. Qed.

Lemma ascii_lower_lower (c : ascii) : ascii_lower (ascii_lower c) = ascii_lower c.
Proof. ascii_cases c. Qed.

Lemma is_space_lower (c : ascii) : is_space (ascii_lower c) = is_space c.
Proof. ascii_cases c. Qed.

Lemma comma_lower (c : ascii) : Ascii.eqb (ascii_lower c) "," = Ascii.eqb c ",".
Proof. ascii_cases c. Qed.

Lemma lower_empty_iff (s : string) : String.eqb (lower s) EmptyString = String.eqb s EmptyString.
Proof. destruct s; reflexivity. Qed.

Lemma lstrip_lower (s : string) : lstrip (lower s) = lower (lstrip s).
Proof.
  induction s as [|c s IH]; simpl; [reflexivity|].
  rewrite is_space_lower. destruct (is_space c); [exact IH | reflexivity].
Qed.

Lemma rstrip_lower (s : string) : rstrip (lower s) = lower (rstrip s).
Proof.
  induction s as [|c s IH]; simpl; [reflexivity|].
  fold (lower s). rewrite IH, lower_empty_iff, is_space_lower.
  destruct (String.eqb (rstrip s) EmptyString && is_space c); reflexivity.
Qed.

Lemma strip_lower (s : string) : strip (lower s) = lower (strip s).
Proof. unfold strip. rewrite lstrip_lower. apply rstrip_lower. Qed.

Lemma split_on_comma_lower (s : string) :
  split_on "," (lower s) = map lower (split_on "," s).
Proof.
  induction s as [|c s IH]; simpl; [reflexivity|].
  fold (lower s). rewrite IH, comma_lower.
  destruct (Ascii.eqb c ","); [reflexivity|].
  destruct (split_on "," s); reflexivity.
Qed.

Lemma upper_lower (s : string) : upper (lower s) = upper s.
Proof.
  unfold upper, lower. induction s as [|c s IH]; cbn [map_str]; [reflexivity|].
  rewrite ascii_upper_lower. f_equal. exact IH.
Qed.

Lemma lower_lower (s : string) : lower (lower s) = lower s.
Proof.
  unfold lower. induction s as [|c s IH]; cbn [map_str]; [reflexivity|].
  rewrite ascii_lower_lower. f_equal. exact IH.
Qed.

Lemma colors_list_lower (cs : string) :
  map (fun x => upper (strip x)) (split_on "," (lower cs)) =
  map (fun x => upper (strip x)) (split_on "," cs).
Proof.
  rewrite split_on_comma_lower, map_map. apply map_ext. intros x.
  rewrite strip_lower. apply upper_lower.
Qed.

Lemma types_list_lower (ts : string) :
  map (fun x => lower (strip x)) (split_on "," (lower ts)) =
  map (fun x => lower (strip x)) (split_on "," ts).
Proof.
  rewrite split_on_comma_lower, map_map. apply map_ext. intros x.
  rewrite strip_lower. apply lower_lower.
Qed.

(** The builder sees the colors, types and rarity parameters only through
    their lower-cased form. *)
Lemma build_search_parts_lower (q colors types rarity : option string) :
  build_search_parts q colors types rarity =
  build_search_parts q (option_map lower colors) (option_map lower types) (option_map lower rarity).
Proof.
  unfold build_search_parts.
  destruct colors as [cs|], types as [ts|], rarity as [rs|];
  cbn [option_map opt_truthy];
  rewrite ?lower_empty_iff, ?colors_list_lower, ?types_list_lower, ?lower_lower;
  reflexivity.
Qed.

(** ** C2 *)

(** C2, as stated, fails: the cache key is made of the raw parameters, so
    colors ["r,u"] and ["R,U"] give two keys, and listing the colors in
    another order changes the query string itself. *)
Lemma cache_key_not_case_or_order_normalized :
  get_cache_key "bolt" 1 "r,u" "" "" <> get_cache_key "bolt" 1 "R,U" "" "" /\
  build_search_query (Some "bolt") (Some "r,u") None None
    = build_search_query (Some "bolt") (Some "R,U") None None /\
  build_search_query (Some "bolt") (Some "R,U") None None = "bolt c:RU" /\
  build_search_query (Some "bolt") (Some "U,R") None None = "bolt c:UR".
Proof. vm_compute. repeat split. discriminate. Qed.

Lemma append_cancel_l (a u v : string) : append a u = append a v -> u = v.
Proof. induction a as [|c a IH]; simpl; [auto | intros H; injection H; exact IH]. Qed.

Lemma append_cancel_len (p1 p2 b1 b2 : string) :
  String.length p1 = String.length p2 -> append p1 b1 = append p2 b2 -> p1 = p2 /\ b1 = b2.
Proof.
  revert p2. induction p1 as [|c p1 IH]; intros [|c' p2]; simpl; try discriminate; [auto|].
  intros L H. injection L as L. injection H as -> H. destruct (IH p2 L H) as [-> ->]. auto.
Qed.

Lemma concat_cons_nonempty (sep x : string) (l : list string) :
  l <> [] -> String.concat sep (x :: l) = append x (append sep (String.concat sep l)).
Proof. destruct l; [contradiction | reflexivity]. Qed.

Lemma concat_mid_inj (sep : string) (A B : list string) (p1 p2 : string) :
  String.length p1 = String.length p2 ->
  String.concat sep (app A (p1 :: B)) = String.concat sep (app A (p2 :: B)) -> p1 = p2.
Proof.
  intros L. induction A as [|a A IH]; simpl app.
  - destruct B as [|b B]; [simpl; auto|].
    rewrite !concat_cons_nonempty by discriminate.
    intros H. exact (proj1 (append_cancel_len _ _ _ _ L H)).
  - rewrite !concat_cons_nonempty by (destruct A; discriminate).
    intros H. apply append_cancel_l, append_cancel_l in H. exact (IH H).
Qed.

Lemma build_search_parts_colors (q : option string) (c : string) (types rarity : option string) :
  c <> EmptyString ->
  build_search_parts q (Some c) types rarity =
  app (build_search_parts q None None None)
      (append "c:" (String.concat "" (map (fun x => upper (strip x)) (split_on "," c)))
       :: build_search_parts None None types rarity).
Proof.
  intros Hc. unfold build_search_parts. cbn [opt_truthy].
  apply String.eqb_neq in Hc. rewrite Hc. cbn [negb app]. rewrite !app_nil_r. reflexivity.
Qed.

Lemma letter_facts (x : ascii) :
  is_ascii_letter x = true -> is_space x = false /\ Ascii.eqb x ","%char = false.
Proof.
  unfold is_ascii_letter, is_space. intros H. split.
  - apply orb_true_iff in H.
    destruct H as [H|H]; apply andb_true_iff in H; destruct H as [H1 H2];
      apply Nat.leb_le in H1; apply Nat.leb_le in H2;
      apply orb_false_iff; split; apply andb_false_iff;
      first [left; apply Nat.leb_gt; lia | right; apply Nat.leb_gt; lia].
  - destruct (Ascii.eqb_spec x ","%char) as [->|]; [discriminate H | reflexivity].
Qed.

Lemma strip_single (x : ascii) : is_space x = false -> strip (String x EmptyString) = String x EmptyString.
Proof. intros S. unfold strip. cbn [lstrip]. rewrite S. cbn [rstrip String.eqb andb]. rewrite S. reflexivity. Qed.

Lemma color_pair_tokens (x y : ascii) :
  is_ascii_letter x = true -> is_ascii_letter y = true ->
  String.concat "" (map (fun s => upper (strip s)) (split_on "," (String x (String ","%char (String y EmptyString)))))
  = String (ascii_upper x) (String (ascii_upper y) EmptyString).
Proof.
  intros Hx Hy. destruct (letter_facts x Hx) as [Sx Cx]. destruct (letter_facts y Hy) as [Sy Cy].
  cbn [split_on]. rewrite Cx, Cy. change (Ascii.eqb ","%char ","%char) with true. cbn [map].
  rewrite (strip_single x Sx), (strip_single y Sy). reflexivity.
Qed.

Lemma build_search_query_color_pair (q : option string) (x y : ascii) (types rarity : option string) :
  is_ascii_letter x = true -> is_ascii_letter y = true ->
  build_search_query q (Some (String x (String ","%char (String y EmptyString)))) types rarity =
  String.concat " " (app (build_search_parts q None None None)
    (String "c"%char (String ":"%char (String (ascii_upper x) (String (ascii_upper y) EmptyString)))
     :: build_search_parts None None types rarity)).
Proof.
  intros Hx Hy. unfold build_search_query.
  rewrite build_search_parts_colors by discriminate. rewrite color_pair_tokens by assumption.
  destruct (build_search_parts q None None None); reflexivity.
Qed.

(** C2 (amended): for the same text query and page, colors, types and
    rarity parameters of ASCII text that differ only in letter case give the
    same query string and the same upstream request.  The cache key is the
    raw concatenation [search:q:page:colors:types:rarity]: for colors, types
    and rarity of equal lengths two keys are equal exactly when the raw
    strings are, so case variants get different keys as soon as their raw
    strings differ; and two distinct color letters listed in the other order
    change both the query string and the key. *)
Theorem search_query_case_insensitive :
  (forall (q : option string) (page : Z) (colors1 colors2 types1 types2 rarity1 rarity2 : option string),
     forallb opt_ascii [colors1; colors2; types1; types2; rarity1; rarity2] = true ->
     option_map lower colors1 = option_map lower colors2 ->
     option_map lower types1 = option_map lower types2 ->
     option_map lower rarity1 = option_map lower rarity2 ->
     build_search_query q colors1 types1 rarity1 = build_search_query q colors2 types2 rarity2 /\
     search_request q colors1 types1 rarity1 page = search_request q colors2 types2 rarity2 page) /\
  (forall (q : string) (page : Z) (colors1 colors2 types1 types2 rarity1 rarity2 : string),
     String.length colors1 = String.length colors2 ->
     String.length types1 = String.length types2 ->
     String.length rarity1 = String.length rarity2 ->
     (get_cache_key q page colors1 types1 rarity1 = get_cache_key q page colors2 types2 rarity2 <->
      colors1 = colors2 /\ types1 = types2 /\ rarity1 = rarity2)) /\
  (forall (q : option string) (page : Z) (x y : ascii) (types rarity : option string),
     is_ascii_letter x = true -> is_ascii_letter y = true -> ascii_upper x <> ascii_upper y ->
     build_search_query q (Some (String x (String ","%char (String y EmptyString)))) types rarity <>
     build_search_query q (Some (String y (String ","%char (String x EmptyString)))) types rarity /\
     get_cache_key (opt_or_empty q) page (String x (String ","%char (String y EmptyString)))
       (opt_or_empty types) (opt_or_empty rarity) <>
     get_cache_key (opt_or_empty q) page (String y (String ","%char (String x EmptyString)))
       (opt_or_empty types) (opt_or_empty rarity)).
Proof.
  assert (Hkey : forall (q : string) (page : Z) (colors1 colors2 types1 types2 rarity1 rarity2 : string),
     String.length colors1 = String.length colors2 ->
     String.length types1 = String.length types2 ->
     String.length rarity1 = String.length rarity2 ->
     (get_cache_key q page colors1 types1 rarity1 = get_cache_key q page colors2 types2 rarity2 <->
      colors1 = colors2 /\ types1 = types2 /\ rarity1 = rarity2)).
  { intros q page c1 c2 t1 t2 r1 r2 Lc Lt Lr. split.
    - unfold get_cache_key. cbn [String.concat]. intros H.
      do 6 apply append_cancel_l in H.
      apply append_cancel_len in H as [Ec H]; [|exact Lc].
      apply append_cancel_l in H.
      apply append_cancel_len in H as [Et H]; [|exact Lt].
      apply append_cancel_l in H. auto.
    - intros (-> & -> & ->). reflexivity. }
  split; [|split].
  - intros q page c1 c2 t1 t2 r1 r2 _ Hc Ht Hr.
    assert (E : build_search_query q c1 t1 r1 = build_search_query q c2 t2 r2).
    { unfold build_search_query.
      rewrite (build_search_parts_lower q c1 t1 r1), (build_search_parts_lower q c2 t2 r2), Hc, Ht, Hr.
      reflexivity. }
    split; [exact E | unfold search_request; rewrite E; reflexivity].
  - exact Hkey.
  - intros q page x y types rarity Hx Hy Hne. split.
    + rewrite !build_search_query_color_pair by assumption. intros H.
      apply concat_mid_inj in H; [|reflexivity]. injection H as E _. exact (Hne E).
    + rewrite Hkey by reflexivity. intros [E _]. injection E as E _. apply Hne. rewrite E. reflexivity.
Qed.

Lemma search_query_case_insensitive_witness :
  build_search_query (Some "bolt") (Some "r, u") (Some "Creature") (Some "RARE")
    = build_search_query (Some "bolt") (Some "R, U") (Some "creature") (Some "rare") /\
  (get_cache_key "bolt" 1 "r, u" "Creature" "RARE" = get_cache_key "bolt" 1 "R, U" "creature" "rare" <->
   "r, u" = "R, U" /\ "Creature" = "creature" /\ "RARE" = "rare") /\
  build_search_query (Some "bolt") (Some "r,u") None None <> build_search_query (Some "bolt") (Some "u,r") None None.
Proof.
  split; [|split].
  - apply (proj1 search_query_case_insensitive (Some "bolt") 1
             (Some "r, u") (Some "R, U") (Some "Creature") (Some "creature")
             (Some "RARE") (Some "rare")); reflexivity.
  - apply (proj1 (proj2 search_query_case_insensitive)); reflexivity.
  - apply (proj2 (proj2 search_query_case_insensitive) (Some "bolt") 1 "r"%char "u"%char None None);
      [reflexivity | reflexivity | discriminate].
Defined.

(** ** C3 *)

Definition clock0 : clock := {| t_check := 0; t_store := 0 |}.

Definition printing_card (id date : string) : json :=
  JObj [("id", JStr id); ("name", JStr "Lightning Bolt"); ("released_at", JStr date)].

(** Scryfall answers with three printings dated 2020-01-01, "" and
    2023-05-01. *)
Definition upstream_three_dates (r : request) : response :=
  Resp 200 "" (Some (JObj [("data", JArr [printing_card "p1" "2020-01-01";
                                         printing_card "p2" "";
                                         printing_card "p3" "2023-05-01"])])).

(** Scryfall answers with one dated printing and one without [released_at]. *)
Definition upstream_missing_date (r : request) : response :=
  Resp 200 "" (Some (JObj [("data", JArr [printing_card "p1" "2020-01-01";
                                         JObj [("id", JStr "p2"); ("name", JStr "Lightning Bolt")]])])).

Definition released_dates (o : outcome) : list json :=
  match o with
  | Return p =>
      match field p "data" with
      | Some (JArr l) => map (fun x => match field x "released_at" with Some v => v | None => JNull end) l
      | _ => []
      end
  | Raise _ _ => []
  end.

(** C3 (code defect): dates ["2020-01-01"; ""; "2023-05-01"] are sorted to
    ["2023-05-01"; "2020-01-01"; ""], but a printing without [released_at]
    gets the key None -- [printing_info] always stores the key, so the
    default [""] of [x.get("released_at", "")] is never used -- and the
    comparison of None with a string raises, so the handler answers 500
    and caches nothing. *)
Theorem printings_sort_missing_date_fails :
  released_dates (fst (fst (get_card_printings upstream_three_dates clock0 [] "Lightning Bolt")))
    = [JStr "2023-05-01"; JStr "2020-01-01"; JStr ""] /\
  res_field (printing_info (JObj [("id", JStr "p2"); ("name", JStr "Lightning Bolt")])) "released_at"
    = Some JNull /\
  get_card_printings upstream_missing_date clock0 [] "Lightning Bolt"
    = (Raise 500 "Internal server error: TypeError", [], [printings_request "Lightning Bolt"]).
Proof. vm_compute. repeat split. Qed.

(** ** C6 *)

(** C6, as stated, fails for the printings lookup: its 404 payload has no
    [has_more] field. *)
Lemma printings_not_found_has_no_has_more :
  get_card_printings (fun _ => Resp 404 "" None) clock0 [] "Nonexistent Card"
    = (Return printings_not_found_payload,
       [("printings:nonexistent card", (printings_not_found_payload, 0))],
       [printings_request "Nonexistent Card"]) /\
  field printings_not_found_payload "has_more" = None.
Proof. vm_compute. split; reflexivity. Qed.

(** C6 (amended): a 404 from upstream is no error.  [search_cards] returns
    data [], total_cards 0, has_more false, the page and a fixed message;
    [get_card_printings] returns data [], total_printings 0 and a fixed
    message (its payloads have no has_more field).  Either payload is
    stored under the request's cache key with the store time, the same
    [cache_set] as for a successful search result. *)
Theorem upstream_not_found_cached :
  (forall (upstream : request -> response) (clk : clock) (c : cache_t)
          (q : option string) (page : Z) (colors types rarity : option string)
          (text : string) (body : option json),
     opt_truthy q || opt_truthy colors || opt_truthy types || opt_truthy rarity = true ->
     fst (cache_check c (get_cache_key (opt_or_empty q) page (opt_or_empty colors)
                           (opt_or_empty types) (opt_or_empty rarity)) (t_check clk)) = None ->
     upstream (search_request q colors types rarity page) = Resp 404 text body ->
     let key := get_cache_key (opt_or_empty q) page (opt_or_empty colors)
                  (opt_or_empty types) (opt_or_empty rarity) in
     let c1 := snd (cache_check c key (t_check clk)) in
     search_cards upstream clk c q page colors types rarity
       = (Return (search_not_found_payload page),
          cache_set key (search_not_found_payload page, t_store clk) c1,
          [search_request q colors types rarity page]) /\
     cache_lookup key (cache_set key (search_not_found_payload page, t_store clk) c1)
       = Some (search_not_found_payload page, t_store clk)) /\
  (forall (upstream : request -> response) (clk : clock) (c : cache_t)
          (q : option string) (page : Z) (colors types rarity : option string)
          (status : Z) (text : string) (d result : json),
     opt_truthy q || opt_truthy colors || opt_truthy types || opt_truthy rarity = true ->
     fst (cache_check c (get_cache_key (opt_or_empty q) page (opt_or_empty colors)
                           (opt_or_empty types) (opt_or_empty rarity)) (t_check clk)) = None ->
     upstream (search_request q colors types rarity page) = Resp status text (Some d) ->
     is_success status = true -> search_result page d = Ok result ->
     let key := get_cache_key (opt_or_empty q) page (opt_or_empty colors)
                  (opt_or_empty types) (opt_or_empty rarity) in
     search_cards upstream clk c q page colors types rarity
       = (Return result, cache_set key (result, t_store clk) (snd (cache_check c key (t_check clk))),
          [search_request q colors types rarity page])) /\
  (forall (page : Z),
     field (search_not_found_payload page) "data" = Some (JArr []) /\
     field (search_not_found_payload page) "total_cards" = Some (JNum 0) /\
     field (search_not_found_payload page) "has_more" = Some (JBool false) /\
     field (search_not_found_payload page) "message" = Some (JStr "No cards found matching your search.")) /\
  (forall (upstream : request -> response) (clk : clock) (c : cache_t) (card_name text : string)
          (body : option json),
     fst (cache_check c (printings_cache_key card_name) (t_check clk)) = None ->
     upstream (printings_request card_name) = Resp 404 text body ->
     get_card_printings upstream clk c card_name
       = (Return printings_not_found_payload,
          cache_set (printings_cache_key card_name) (printings_not_found_payload, t_store clk)
            (snd (cache_check c (printings_cache_key card_name) (t_check clk))),
          [printings_request card_name])) /\
  field printings_not_found_payload "data" = Some (JArr []) /\
  field printings_not_found_payload "total_printings" = Some (JNum 0) /\
  field printings_not_found_payload "message" = Some (JStr "No printings found for this card.").
Proof.
  split; [|split; [|split; [|split]]].
  - intros upstream clk c q page colors types rarity text body Hcrit Hmiss Hup key c1.
    split; [|apply cache_lookup_set_same].
    unfold search_cards.
    replace (negb (opt_truthy q) && negb (opt_truthy colors) && negb (opt_truthy types)
             && negb (opt_truthy rarity)) with false
      by (destruct (opt_truthy q), (opt_truthy colors), (opt_truthy types), (opt_truthy rarity);
          simpl in *; congruence).
    fold key. fold key in Hmiss. unfold c1.
    destruct (cache_check c key (t_check clk)) as [[hit|] c0]; simpl in Hmiss; [discriminate|].
    rewrite Hup. reflexivity.
  - intros upstream clk c q page colors types rarity status text d result Hcrit Hmiss Hup Hs Hr key.
    unfold search_cards.
    replace (negb (opt_truthy q) && negb (opt_truthy colors) && negb (opt_truthy types)
             && negb (opt_truthy rarity)) with false
      by (destruct (opt_truthy q), (opt_truthy colors), (opt_truthy types), (opt_truthy rarity);
          simpl in *; congruence).
    fold key. fold key in Hmiss.
    destruct (cache_check c key (t_check clk)) as [[hit|] c0]; simpl in Hmiss; [discriminate|].
    rewrite Hup, Hr.
    replace (Z.eqb status 404) with false
      by (unfold is_success in Hs; destruct (Z.eqb_spec status 404); [subst; discriminate | reflexivity]).
    rewrite Hs. reflexivity.
  - intros page. repeat split.
  - intros upstream clk c card_name text body Hmiss Hup.
    unfold get_card_printings.
    destruct (cache_check c (printings_cache_key card_name) (t_check clk)) as [[hit|] c0];
      simpl in Hmiss; [discriminate|].
    rewrite Hup. reflexivity.
  - repeat split.
Qed.

Lemma upstream_not_found_cached_witness :
  search_cards (fun _ => Resp 404 "" None) clock0 [] (Some "zzzz") 1 None None None
    = (Return (search_not_found_payload 1),
       cache_set "search:zzzz:1:::" (search_not_found_payload 1, 0) [],
       [search_request (Some "zzzz") None None None 1]).
Proof.
  apply (proj1 (proj1 upstream_not_found_cached (fun _ => Resp 404 "" None) clock0 []
                  (Some "zzzz") 1 None None None "" None eq_refl eq_refl eq_refl)).
Defined.

(** ** C10 *)

Lemma printings_result_card_name (card_name : string) (d p : json) :
  printings_result card_name d = Ok p -> field p "card_name" = Some (JStr card_name).
Proof.
  unfold printings_result.
  destruct (dget d "data" (JArr [])) as [data|]; simpl; [|discriminate].
  destruct (py_iter data) as [items|]; simpl; [|discriminate].
  destruct (map_m printing_info items) as [ps|]; simpl; [|discriminate].
  destruct (sort_desc ps) as [sorted|]; simpl; [|discriminate].
  intros H. injection H as <-. reflexivity.
Qed.

(** C10: the printings lookup uses the key ["printings:" ++ lower name].
    After a first request that missed the cache and got a successful
    upstream answer, a second request whose name differs only in letter
    case, made while the entry is younger than [CACHE_DURATION], returns
    the first payload -- with [card_name] as spelled in the first request
    -- without any upstream call and without changing the cache. *)
Theorem printings_cache_shared_across_case :
  forall (upstream : request -> response) (clk1 clk2 : clock) (c : cache_t)
         (name1 name2 : string) (status : Z) (text : string) (d p1 : json),
    cache_lookup (printings_cache_key name1) c = None ->
    upstream (printings_request name1) = Resp status text (Some d) ->
    is_success status = true ->
    printings_result name1 d = Ok p1 ->
    lower name1 = lower name2 ->
    t_check clk2 - t_store clk1 < CACHE_DURATION ->
    printings_cache_key name1 = append "printings:" (lower name1) /\
    printings_cache_key name2 = printings_cache_key name1 /\
    field p1 "card_name" = Some (JStr name1) /\
    exists c1,
      get_card_printings upstream clk1 c name1 = (Return p1, c1, [printings_request name1]) /\
      get_card_printings upstream clk2 c1 name2 = (Return p1, c1, []).
Proof.
  intros upstream clk1 clk2 c name1 name2 status text d p1 Hmiss Hup Hs Hr Hcase Hage.
  assert (Hkey : printings_cache_key name2 = printings_cache_key name1)
    by (unfold printings_cache_key; rewrite Hcase; reflexivity).
  split; [reflexivity|]. split; [exact Hkey|].
  split; [exact (printings_result_card_name _ _ _ Hr)|].
  exists (cache_set (printings_cache_key name1) (p1, t_store clk1) c).
  split.
  - unfold get_card_printings, cache_check. rewrite Hmiss, Hup, Hr.
    replace (Z.eqb status 404) with false
      by (unfold is_success in Hs; destruct (Z.eqb_spec status 404); [subst; discriminate | reflexivity]).
    rewrite Hs. reflexivity.
  - unfold get_card_printings, cache_check. rewrite Hkey, cache_lookup_set_same.
    unfold is_cache_valid. destruct (Z.ltb_spec (t_check clk2 - t_store clk1) CACHE_DURATION);
      [reflexivity | lia].
Qed.

Definition upstream_one_printing (r : request) : response :=
  Resp 200 "" (Some (JObj [("data", JArr [printing_card "p1" "2020-01-01"])])).

Lemma printings_cache_shared_across_case_witness :
  exists c1,
    get_card_printings upstream_one_printing {| t_check := 0; t_store := 5 |} [] "Lightning Bolt"
      = (Return (res_out (printings_result "Lightning Bolt"
                           (JObj [("data", JArr [printing_card "p1" "2020-01-01"])]))),
         c1, [printings_request "Lightning Bolt"]) /\
    get_card_printings upstream_one_printing {| t_check := 60000000; t_store := 60000000 |} c1 "LIGHTNING BOLT"
      = (Return (res_out (printings_result "Lightning Bolt"
                           (JObj [("data", JArr [printing_card "p1" "2020-01-01"])]))), c1, []).
Proof.
  refine (proj2 (proj2 (proj2
    (printings_cache_shared_across_case upstream_one_printing
       {| t_check := 0; t_store := 5 |} {| t_check := 60000000; t_store := 60000000 |} []
       "Lightning Bolt" "LIGHTNING BOLT" 200 ""
       (JObj [("data", JArr [printing_card "p1" "2020-01-01"])])
       (res_out (printings_result "Lightning Bolt"
                   (JObj [("data", JArr [printing_card "p1" "2020-01-01"])])))
       _ _ _ _ _ _)))); vm_compute; reflexivity.
Defined.

(** ** Witnesses at concrete caches *)

Lemma cache_check_ttl_witness :
  fst (cache_check [("k", (JNull, 0))] "k" CACHE_DURATION) = None /\
  cache_lookup "k" (snd (cache_check [("k", (JNull, 0))] "k" CACHE_DURATION)) = None /\
  (forall k', k' <> "k" ->
     cache_lookup k' (snd (cache_check [("k", (JNull, 0))] "k" CACHE_DURATION))
     = cache_lookup k' [("k", (JNull, 0))]).
Proof.
  apply (proj2 (proj2 (cache_check_ttl [("k", (JNull, 0))] "k" CACHE_DURATION)) JNull 0);
    [reflexivity | vm_compute; discriminate].
Defined.

Lemma get_cache_stats_counts_witness :
  exists v e : nat,
    v = List.length (filter (fun en => is_cache_valid 700000000 (snd (snd en)))
                      [("a", (JNull, 0)); ("b", (JNull, 650000000))]) /\
    e = List.length (filter (fun en => negb (is_cache_valid 700000000 (snd (snd en))))
                      [("a", (JNull, 0)); ("b", (JNull, 650000000))]).
Proof.
  destruct (proj2 (get_cache_stats_counts (fun _ => 700000000)
                     [("a", (JNull, 0)); ("b", (JNull, 650000000))]))
    as [v [e [_ [_ [_ [_ H]]]]]].
  exists v, e. apply (H 700000000). intros i. reflexivity.
Defined.

(** * Further properties of the handlers *)

(** ** More cache lemmas *)

Lemma cache_lookup_set_other (k k' : string) (v : json * Z) (c : cache_t) :
  k' <> k -> cache_lookup k' (cache_set k v c) = cache_lookup k' c.
Proof.
  intros Hne. unfold cache_set.
  destruct (cache_lookup k c) as [e|] eqn:L.
  - clear L. induction c as [|[k0 e0] c IH]; simpl; [reflexivity|].
    destruct (String.eqb k0 k) eqn:E; simpl.
    + apply String.eqb_eq in E; subst k0.
      destruct (String.eqb k' k) eqn:E'; [apply String.eqb_eq in E'; congruence|]. exact IH.
    + rewrite IH. reflexivity.
  - induction c as [|[k0 e0] c IH]; simpl in *.
    + destruct (String.eqb k' k) eqn:E'; [apply String.eqb_eq in E'; congruence|]. reflexivity.
    + destruct (String.eqb k k0); [discriminate|].
      rewrite IH by exact L. reflexivity.
Qed.

Lemma cache_check_miss_lookup (c : cache_t) (k : string) (now : Z) :
  fst (cache_check c k now) = None -> cache_lookup k (snd (cache_check c k now)) = None.
Proof.
  unfold cache_check. destruct (cache_lookup k c) as [[d ts]|] eqn:L; [|intros _; exact L].
  destruct (is_cache_valid now ts); simpl; [discriminate | intros _; apply cache_lookup_del_same].
Qed.

Lemma cache_check_other (c : cache_t) (k k' : string) (now : Z) :
  k' <> k -> cache_lookup k' (snd (cache_check c k now)) = cache_lookup k' c.
Proof.
  intros Hne. unfold cache_check.
  destruct (cache_lookup k c) as [[d ts]|]; [|reflexivity].
  destruct (is_cache_valid now ts); [reflexivity | apply cache_lookup_del_other; exact Hne].
Qed.

Lemma cache_check_hit_same (c : cache_t) (k : string) (now : Z) (d : json) :
  fst (cache_check c k now) = Some d -> snd (cache_check c k now) = c.
Proof.
  unfold cache_check. destruct (cache_lookup k c) as [[d0 ts]|]; [|discriminate].
  destruct (is_cache_valid now ts); [reflexivity | discriminate].
Qed.

(** ** How the handlers end *)

Definition search_key (q : option string) (page : Z) (colors types rarity : option string) : string :=
  get_cache_key (opt_or_empty q) page (opt_or_empty colors) (opt_or_empty types) (opt_or_empty rarity).

Definition no_criteria (q colors types rarity : option string) : bool :=
  negb (opt_truthy q) && negb (opt_truthy colors) && negb (opt_truthy types) && negb (opt_truthy rarity).

(** A call of [search_cards] short-circuits, is served from the cache, or
    makes its one upstream request and then either raises without writing
    the cache or returns a payload it has stored under its key. *)
Lemma search_cards_shape (upstream : request -> response) (clk : clock) (c : cache_t)
    (q : option string) (page : Z) (colors types rarity : option string) :
  let key := search_key q page colors types rarity in
  let cc := cache_check c key (t_check clk) in
  let r := search_cards upstream clk c q page colors types rarity in
  (no_criteria q colors types rarity = true /\
   r = (Return (no_criteria_payload page), c, [])) \/
  (no_criteria q colors types rarity = false /\
   exists d, fst cc = Some d /\ r = (Return d, snd cc, [])) \/
  (no_criteria q colors types rarity = false /\ fst cc = None /\
   snd r = [search_request q colors types rarity page] /\
   ((snd (fst r) = snd cc /\ exists s det, fst (fst r) = Raise s det) \/
    (exists p, fst (fst r) = Return p /\ snd (fst r) = cache_set key (p, t_store clk) (snd cc)))).
Proof.
  intros key cc r. unfold r, search_cards. fold (no_criteria q colors types rarity).
  destruct (no_criteria q colors types rarity); [left; split; reflexivity|right].
  fold (search_key q page colors types rarity). fold key. fold cc.
  destruct cc as [[d|] c1]; simpl.
  - left. split; [reflexivity|]. exists d. split; reflexivity.
  - right. split; [reflexivity|]. split; [reflexivity|].
    destruct (upstream (search_request q colors types rarity page)) as [|s text body]; simpl.
    + split; [reflexivity|]. left. split; [reflexivity|]. eexists; eexists; reflexivity.
    + destruct (Z.eqb s 404); simpl.
      { split; [reflexivity|]. right. eexists; split; reflexivity. }
      destruct (negb (is_success s)); simpl.
      { split; [reflexivity|]. left. split; [reflexivity|]. eexists; eexists; reflexivity. }
      destruct body as [sd|]; simpl.
      * destruct (search_result page sd); simpl; split; try reflexivity.
        -- right. eexists; split; reflexivity.
        -- left. split; [reflexivity|]. eexists; eexists; reflexivity.
      * split; [reflexivity|]. left. split; [reflexivity|]. eexists; eexists; reflexivity.
Qed.

(** The same for [get_card_printings], which has no short-circuit. *)
Lemma get_card_printings_shape (upstream : request -> response) (clk : clock) (c : cache_t)
    (card_name : string) :
  let key := printings_cache_key card_name in
  let cc := cache_check c key (t_check clk) in
  let r := get_card_printings upstream clk c card_name in
  (exists d, fst cc = Some d /\ r = (Return d, snd cc, [])) \/
  (fst cc = None /\ snd r = [printings_request card_name] /\
   ((snd (fst r) = snd cc /\ exists s det, fst (fst r) = Raise s det) \/
    (exists p, fst (fst r) = Return p /\ snd (fst r) = cache_set key (p, t_store clk) (snd cc)))).
Proof.
  intros key cc r. unfold r, get_card_printings. fold key. fold cc.
  destruct cc as [[d|] c1]; simpl.
  - left. exists d. split; reflexivity.
  - right. split; [reflexivity|].
    destruct (upstream (printings_request card_name)) as [|s text body]; simpl.
    + split; [reflexivity|]. left. split; [reflexivity|]. eexists; eexists; reflexivity.
    + destruct (Z.eqb s 404); simpl.
      { split; [reflexivity|]. right. eexists; split; reflexivity. }
      destruct (negb (is_success s)); simpl.
      { split; [reflexivity|]. left. split; [reflexivity|]. eexists; eexists; reflexivity. }
      destruct body as [sd|]; simpl.
      * destruct (printings_result card_name sd); simpl; split; try reflexivity.
        -- right. eexists; split; reflexivity.
        -- left. split; [reflexivity|]. eexists; eexists; reflexivity.
      * split; [reflexivity|]. left. split; [reflexivity|]. eexists; eexists; reflexivity.
Qed.

(** ** Extra properties of the handlers *)

(** Each handler call makes at most one upstream request and never retries:
    the requests made are none or exactly the request built from its
    parameters. *)
Theorem handlers_single_upstream_request :
  (forall (upstream : request -> response) (clk : clock) (c : cache_t)
          (q : option string) (page : Z) (colors types rarity : option string),
     snd (search_cards upstream clk c q page colors types rarity) = [] \/
     snd (search_cards upstream clk c q page colors types rarity) = [search_request q colors types rarity page]) /\
  (forall (upstream : request -> response) (clk : clock) (c : cache_t) (card_name : string),
     snd (get_card_printings upstream clk c card_name) = [] \/
     snd (get_card_printings upstream clk c card_name) = [printings_request card_name]).
Proof.
  split.
  - intros. destruct (search_cards_shape upstream clk c q page colors types rarity)
      as [[_ E]|[[_ [d [_ E]]]|[_ [_ [E _]]]]]; rewrite ?E; simpl; auto.
  - intros. destruct (get_card_printings_shape upstream clk c card_name)
      as [[d [_ E]]|[_ [E _]]]; rewrite ?E; simpl; auto.
Qed.

(** A handler call that raises leaves no entry under its key (an expired
    entry read on the way is removed) and every other key as it was. *)
Theorem handlers_failure_not_cached :
  (forall (upstream : request -> response) (clk : clock) (c : cache_t)
          (q : option string) (page : Z) (colors types rarity : option string)
          (status : Z) (detail : string),
     fst (fst (search_cards upstream clk c q page colors types rarity)) = Raise status detail ->
     cache_lookup (search_key q page colors types rarity)
       (snd (fst (search_cards upstream clk c q page colors types rarity))) = None /\
     forall k', k' <> search_key q page colors types rarity ->
       cache_lookup k' (snd (fst (search_cards upstream clk c q page colors types rarity)))
       = cache_lookup k' c) /\
  (forall (upstream : request -> response) (clk : clock) (c : cache_t) (card_name : string)
          (status : Z) (detail : string),
     fst (fst (get_card_printings upstream clk c card_name)) = Raise status detail ->
     cache_lookup (printings_cache_key card_name) (snd (fst (get_card_printings upstream clk c card_name))) = None /\
     forall k', k' <> printings_cache_key card_name ->
       cache_lookup k' (snd (fst (get_card_printings upstream clk c card_name))) = cache_lookup k' c).
Proof.
  split.
  - intros upstream clk c q page colors types rarity status detail H.
    destruct (search_cards_shape upstream clk c q page colors types rarity)
      as [[_ E]|[[_ [d [_ E]]]|[_ [Hmiss [_ [[E _]|[p [Ep _]]]]]]]].
    + rewrite E in H. discriminate.
    + rewrite E in H. discriminate.
    + rewrite E. split; [exact (cache_check_miss_lookup _ _ _ Hmiss)|].
      intros k' Hne. apply cache_check_other. exact Hne.
    + rewrite Ep in H. discriminate.
  - intros upstream clk c card_name status detail H.
    destruct (get_card_printings_shape upstream clk c card_name)
      as [[d [_ E]]|[Hmiss [_ [[E _]|[p [Ep _]]]]]].
    + rewrite E in H. discriminate.
    + rewrite E. split; [exact (cache_check_miss_lookup _ _ _ Hmiss)|].
      intros k' Hne. apply cache_check_other. exact Hne.
    + rewrite Ep in H. discriminate.
Qed.

Lemma handlers_failure_not_cached_witness :
  cache_lookup "search:bolt:1:::"
    (snd (fst (search_cards (fun _ => RespTimeout) clock0
                 [("search:bolt:1:::", (JNull, - CACHE_DURATION))] (Some "bolt") 1 None None None)))
  = None.
Proof.
  apply (proj1 handlers_failure_not_cached (fun _ => RespTimeout) clock0
           [("search:bolt:1:::", (JNull, - CACHE_DURATION))] (Some "bolt") 1 None None None
           504 "Request to Scryfall API timed out").
  vm_compute. reflexivity.
Defined.

(** A handler call only ever touches the entry under its own key. *)
Theorem handlers_touch_only_own_key :
  (forall (upstream : request -> response) (clk : clock) (c : cache_t)
          (q : option string) (page : Z) (colors types rarity : option string) (k' : string),
     k' <> search_key q page colors types rarity ->
     cache_lookup k' (snd (fst (search_cards upstream clk c q page colors types rarity)))
     = cache_lookup k' c) /\
  (forall (upstream : request -> response) (clk : clock) (c : cache_t) (card_name k' : string),
     k' <> printings_cache_key card_name ->
     cache_lookup k' (snd (fst (get_card_printings upstream clk c card_name))) = cache_lookup k' c).
Proof.
  split.
  - intros upstream clk c q page colors types rarity k' Hne.
    destruct (search_cards_shape upstream clk c q page colors types rarity)
      as [[_ E]|[[_ [d [Hd E]]]|[_ [Hmiss [_ [[E _]|[p [_ E]]]]]]]];
      rewrite E; simpl; try reflexivity.
    + rewrite (cache_check_hit_same _ _ _ _ Hd). reflexivity.
    + apply cache_check_other. exact Hne.
    + rewrite cache_lookup_set_other by exact Hne. apply cache_check_other. exact Hne.
  - intros upstream clk c card_name k' Hne.
    destruct (get_card_printings_shape upstream clk c card_name)
      as [[d [Hd E]]|[Hmiss [_ [[E _]|[p [_ E]]]]]]; rewrite E; simpl.
    + rewrite (cache_check_hit_same _ _ _ _ Hd). reflexivity.
    + apply cache_check_other. exact Hne.
    + rewrite cache_lookup_set_other by exact Hne. apply cache_check_other. exact Hne.
Qed.

Lemma handlers_touch_only_own_key_witness :
  cache_lookup "printings:shock"
    (snd (fst (get_card_printings (fun _ => Resp 404 "" None) clock0
                 [("printings:shock", (JNull, 0))] "Lightning Bolt")))
  = Some (JNull, 0).
Proof.
  apply (proj2 handlers_touch_only_own_key (fun _ => Resp 404 "" None) clock0
           [("printings:shock", (JNull, 0))] "Lightning Bolt" "printings:shock").
  vm_compute. discriminate.
Defined.

(** A search that went upstream and returned a payload is answered from
    the cache by the same search made while that payload is younger than
    [CACHE_DURATION]: same payload, no upstream request, cache unchanged. *)
Theorem search_cards_repeat_served_from_cache :
  forall (upstream : request -> response) (clk1 clk2 : clock) (c c1 : cache_t)
         (q : option string) (page : Z) (colors types rarity : option string)
         (p : json) (req : request),
    search_cards upstream clk1 c q page colors types rarity = (Return p, c1, [req]) ->
    t_check clk2 - t_store clk1 < CACHE_DURATION ->
    search_cards upstream clk2 c1 q page colors types rarity = (Return p, c1, []).
Proof.
  intros upstream clk1 clk2 c c1 q page colors types rarity p req H Hage.
  destruct (search_cards_shape upstream clk1 c q page colors types rarity)
    as [[_ E]|[[_ [d [_ E]]]|[Hnc [_ [_ [[E [s [det Er]]]|[p' [Ep E]]]]]]]];
    rewrite H in *; simpl in *; try discriminate.
  injection Ep as <-. subst c1.
    unfold search_cards. fold (no_criteria q colors types rarity). rewrite Hnc.
    fold (search_key q page colors types rarity).
    unfold cache_check at 1. rewrite cache_lookup_set_same.
    unfold is_cache_valid. destruct (Z.ltb_spec (t_check clk2 - t_store clk1) CACHE_DURATION);
      [reflexivity | lia].
Qed.

Lemma search_cards_repeat_served_from_cache_witness :
  search_cards upstream_one_printing {| t_check := 1; t_store := 1 |}
    (snd (fst (search_cards upstream_one_printing clock0 [] (Some "bolt") 1 None None None)))
    (Some "bolt") 1 None None None
  = (fst (fst (search_cards upstream_one_printing clock0 [] (Some "bolt") 1 None None None)),
     snd (fst (search_cards upstream_one_printing clock0 [] (Some "bolt") 1 None None None)), []).
Proof.
  apply (search_cards_repeat_served_from_cache upstream_one_printing clock0
           {| t_check := 1; t_store := 1 |} []
           (snd (fst (search_cards upstream_one_printing clock0 [] (Some "bolt") 1 None None None)))
           (Some "bolt") 1 None None None
           (res_out (search_result 1 (JObj [("data", JArr [printing_card "p1" "2020-01-01"])])))
           (search_request (Some "bolt") None None None 1));
    vm_compute; reflexivity.
Defined.

Lemma cache_check_set_fresh (c : cache_t) (k : string) (v : json) (t now : Z) :
  now - t < CACHE_DURATION ->
  cache_check (cache_set k (v, t) c) k now = (Some v, cache_set k (v, t) c).
Proof.
  intros H. unfold cache_check. rewrite cache_lookup_set_same. unfold is_cache_valid.
  destruct (Z.ltb_spec (now - t) CACHE_DURATION); [reflexivity | lia].
Qed.

Lemma append_assoc_str (s1 s2 s3 : string) : append (append s1 s2) s3 = append s1 (append s2 s3).
Proof. induction s1 as [|c s1 IH]; simpl; [reflexivity|]. rewrite IH. reflexivity. Qed.

Lemma append_nonempty_r (s1 s2 : string) : s2 <> EmptyString -> append s1 s2 <> EmptyString.
Proof. destruct s1; simpl; [tauto | discriminate]. Qed.

(** Cache keys collide across fields: colors ["a:b"] with types [t] and
    colors ["a"] with types ["b:t"] give the same key, so the second search
    is served the first one's cached payload although it builds another
    query. *)
Theorem search_cache_key_collision :
  (forall (q : string) (page : Z) (a b t r : string),
     get_cache_key q page (append a (append ":" b)) t r = get_cache_key q page a (append b (append ":" t)) r) /\
  (forall (upstream : request -> response) (clk1 clk2 : clock) (c c1 : cache_t)
          (q : option string) (page : Z) (a b t : string) (rarity : option string)
          (p : json) (req : request),
     search_cards upstream clk1 c q page (Some (append a (append ":" b))) (Some t) rarity = (Return p, c1, [req]) ->
     t_check clk2 - t_store clk1 < CACHE_DURATION ->
     search_cards upstream clk2 c1 q page (Some a) (Some (append b (append ":" t))) rarity = (Return p, c1, [])).
Proof.
  assert (Hkey : forall (q : string) (page : Z) (a b t r : string),
     get_cache_key q page (append a (append ":" b)) t r = get_cache_key q page a (append b (append ":" t)) r).
  { intros. unfold get_cache_key. simpl. rewrite !append_assoc_str. reflexivity. }
  split; [exact Hkey|].
  intros upstream clk1 clk2 c c1 q page a b t rarity p req H Hage.
  destruct (search_cards_shape upstream clk1 c q page (Some (append a (append ":" b))) (Some t) rarity)
    as [[_ E]|[[_ [d [_ E]]]|[Hnc [_ [_ [[E [s [det Er]]]|[p' [Ep E]]]]]]]];
    rewrite H in *; simpl in *; try discriminate.
  injection Ep as <-. subst c1.
  assert (Htr : opt_truthy (Some (append b (String ":" t))) = true).
  { unfold opt_truthy. destruct (String.eqb (append b (String ":" t)) EmptyString) eqn:Eb; [|reflexivity].
    apply String.eqb_eq in Eb. exfalso. revert Eb. apply append_nonempty_r. discriminate. }
  assert (Hkey2 : get_cache_key (opt_or_empty q) page a (append b (String ":" t)) (opt_or_empty rarity)
                  = get_cache_key (opt_or_empty q) page (append a (String ":" b)) t (opt_or_empty rarity))
    by (symmetry; apply Hkey).
  unfold search_cards. rewrite Htr. cbn [negb andb opt_or_empty]. rewrite andb_false_r.
  cbn [andb]. rewrite Hkey2.
  rewrite cache_check_set_fresh by exact Hage. reflexivity.
Qed.

Lemma search_cache_key_collision_witness :
  build_search_query None (Some "R:U") (Some "creature") None = "c:R:U t:creature" /\
  build_search_query None (Some "R") (Some "U:creature") None = "c:R t:u:creature" /\
  search_cards upstream_one_printing {| t_check := 1; t_store := 1 |}
    (snd (fst (search_cards upstream_one_printing clock0 [] None 1 (Some "R:U") (Some "creature") None)))
    None 1 (Some "R") (Some "U:creature") None
  = (fst (fst (search_cards upstream_one_printing clock0 [] None 1 (Some "R:U") (Some "creature") None)),
     snd (fst (search_cards upstream_one_printing clock0 [] None 1 (Some "R:U") (Some "creature") None)), []).
Proof.
  split; [reflexivity|]. split; [reflexivity|].
  apply (proj2 search_cache_key_collision upstream_one_printing clock0
           {| t_check := 1; t_store := 1 |} []
           (snd (fst (search_cards upstream_one_printing clock0 [] None 1 (Some "R:U") (Some "creature") None)))
           None 1 "R" "U" "creature" None
           (res_out (search_result 1 (JObj [("data", JArr [printing_card "p1" "2020-01-01"])])))
           (search_request None (Some "R:U") (Some "creature") None 1));
    vm_compute; reflexivity.
Defined.

(** How a search that goes upstream fails: a timeout gives 504, a non-2xx
    status other than 404 is relayed with the upstream text, a body that is
    not JSON or that the normalizer rejects gives 500. *)
Theorem search_cards_error_statuses :
  forall (upstream : request -> response) (clk : clock) (c : cache_t)
         (q : option string) (page : Z) (colors types rarity : option string),
    no_criteria q colors types rarity = false ->
    fst (cache_check c (search_key q page colors types rarity) (t_check clk)) = None ->
    let req := search_request q colors types rarity page in
    let o := fst (fst (search_cards upstream clk c q page colors types rarity)) in
    (upstream req = RespTimeout -> o = Raise 504 "Request to Scryfall API timed out") /\
    (forall s text body, upstream req = Resp s text body -> s <> 404 -> is_success s = false ->
       o = Raise s (append "Scryfall API error: " text)) /\
    (forall s text, upstream req = Resp s text None -> is_success s = true ->
       o = Raise 500 "Internal server error: ValueError") /\
    (forall s text d e, upstream req = Resp s text (Some d) -> is_success s = true ->
       search_result page d = Err e -> o = Raise 500 (append "Internal server error: " (exc_str e))).
Proof.
  intros upstream clk c q page colors types rarity Hnc Hmiss req o.
  unfold o, search_cards. fold (no_criteria q colors types rarity). rewrite Hnc.
  fold (search_key q page colors types rarity).
  destruct (cache_check c (search_key q page colors types rarity) (t_check clk)) as [[d|] c1];
    simpl in Hmiss; [discriminate|]. fold req.
  assert (N404 : forall s, is_success s = true -> Z.eqb s 404 = false).
  { intros s Hs. unfold is_success in Hs. destruct (Z.eqb_spec s 404); [subst; discriminate | reflexivity]. }
  split; [|split; [|split]].
  - intros Hup. rewrite Hup. reflexivity.
  - intros s text body Hup Hne Hs. rewrite Hup.
    replace (Z.eqb s 404) with false by (symmetry; apply Z.eqb_neq; exact Hne).
    rewrite Hs. reflexivity.
  - intros s text Hup Hs. rewrite Hup, (N404 s Hs), Hs. reflexivity.
  - intros s text d e Hup Hs He. rewrite Hup, (N404 s Hs), Hs, He. reflexivity.
Qed.

Lemma search_cards_error_statuses_witness :
  fst (fst (search_cards (fun _ => Resp 503 "busy" None) clock0 [] (Some "bolt") 1 None None None))
  = Raise 503 "Scryfall API error: busy".
Proof.
  apply (proj1 (proj2 (search_cards_error_statuses (fun _ => Resp 503 "busy" None) clock0 []
                         (Some "bolt") 1 None None None eq_refl eq_refl)) 503 "busy" None);
    [reflexivity | discriminate | reflexivity].
Defined.

(** Parameters given as empty strings count as absent: a search whose text
    query, colors, types and rarity are each absent or [""] returns the
    no-criteria payload without any upstream request or cache change. *)
Theorem search_cards_empty_strings_short_circuit :
  forall (upstream : request -> response) (clk : clock) (c : cache_t) (page : Z)
         (q colors types rarity : option string),
    (q = None \/ q = Some "") -> (colors = None \/ colors = Some "") ->
    (types = None \/ types = Some "") -> (rarity = None \/ rarity = Some "") ->
    search_cards upstream clk c q page colors types rarity = (Return (no_criteria_payload page), c, []).
Proof.
  intros upstream clk c page q colors types rarity Hq Hc Ht Hr.
  destruct Hq as [->| ->], Hc as [->| ->], Ht as [->| ->], Hr as [->| ->]; reflexivity.
Qed.

Lemma search_cards_empty_strings_short_circuit_witness :
  search_cards upstream_one_printing clock0 [] (Some "") 3 None (Some "") None
  = (Return (no_criteria_payload 3), [], []).
Proof.
  apply search_cards_empty_strings_short_circuit; auto.
Defined.

(** After [clear_cache], [get_cache_stats] reports no entries at all. *)
Theorem clear_cache_then_stats_zero :
  forall (clock : nat -> Z) (c : cache_t),
    snd (clear_cache c) = [] /\
    get_cache_stats clock (snd (clear_cache c)) =
      (JObj [("total_entries", JNum 0); ("valid_entries", JNum 0); ("expired_entries", JNum 0);
             ("cache_duration_minutes", JNum 10)], []).
Proof. intros. split; reflexivity. Qed.

(** Writing an entry and reading it back: a read younger than
    [CACHE_DURATION] returns the written payload and changes nothing; an
    older read misses and removes the entry. *)
Theorem cache_set_then_check :
  forall (c : cache_t) (k : string) (v : json) (t now : Z),
    (now - t < CACHE_DURATION ->
     cache_check (cache_set k (v, t) c) k now = (Some v, cache_set k (v, t) c)) /\
    (now - t >= CACHE_DURATION ->
     fst (cache_check (cache_set k (v, t) c) k now) = None /\
     cache_lookup k (snd (cache_check (cache_set k (v, t) c) k now)) = None).
Proof.
  intros c k v t now. unfold cache_check. rewrite cache_lookup_set_same. unfold is_cache_valid.
  split; intros H; destruct (Z.ltb_spec (now - t) CACHE_DURATION); try lia.
  - reflexivity.
  - split; [reflexivity | apply cache_lookup_del_same].
Qed.

Lemma cache_set_then_check_witness :
  cache_check (cache_set "k" (JBool true, 5) []) "k" 10 = (Some (JBool true), [("k", (JBool true, 5))]).
Proof. apply (proj1 (cache_set_then_check [] "k" (JBool true) 5 10)). vm_compute. reflexivity. Defined.

(** ** Extra properties of the normalizers *)

Lemma map_m_length {A B} (f : A -> res B) (l : list A) (l' : list B) :
  map_m f l = Ok l' -> List.length l' = List.length l.
Proof.
  revert l'. induction l as [|x l IH]; simpl; intros l' H.
  - injection H as <-. reflexivity.
  - destruct (f x) as [y|]; simpl in H; [|discriminate].
    destruct (map_m f l) as [ys|] eqn:E; simpl in H; [|discriminate].
    injection H as <-. simpl. f_equal. apply IH. reflexivity.
Qed.

(** The search payload: [total_cards] and [has_more] are copied from the
    upstream body (defaults 0 and false), [next_page] is [page + 1] exactly
    when [has_more] is truthy and null otherwise, and there is one
    normalized card per upstream record; a body that is not a dict
    raises. *)
Theorem search_result_fields :
  (forall (page : Z) (kv : list (string * json)) (result : json),
     search_result page (JObj kv) = Ok result ->
     field result "total_cards" = Some (kv_get kv "total_cards" (JNum 0)) /\
     field result "has_more" = Some (kv_get kv "has_more" (JBool false)) /\
     field result "page" = Some (JNum page) /\
     field result "next_page" =
       Some (if truthy (kv_get kv "has_more" (JBool false)) then JNum (page + 1) else JNull) /\
     (forall l, kv_get kv "data" (JArr []) = JArr l ->
        exists cards, field result "data" = Some (JArr cards) /\ List.length cards = List.length l)) /\
  (forall (page : Z) (v : json), (forall kv, v <> JObj kv) -> search_result page v = Err AttributeError).
Proof.
  split.
  - intros page kv result H. unfold search_result in H. simpl in H.
    destruct (py_iter (kv_get kv "data" (JArr []))) as [items|] eqn:Ei; simpl in H; [|discriminate].
    destruct (map_m normalize_card items) as [cards|] eqn:Em; simpl in H; [|discriminate].
    injection H as <-. simpl. repeat split.
    intros l El. rewrite El in Ei. simpl in Ei. injection Ei as <-.
    exists cards. split; [reflexivity | exact (map_m_length _ _ _ Em)].
  - intros page v Hv. destruct v; try reflexivity. exfalso. exact (Hv kv eq_refl).
Qed.

Lemma search_result_fields_witness :
  field (res_out (search_result 2 (JObj [("data", JArr [printing_card "p1" "2020-01-01"]);
                                       ("has_more", JBool true)]))) "next_page" = Some (JNum 3).
Proof.
  apply (proj1 search_result_fields 2 [("data", JArr [printing_card "p1" "2020-01-01"]); ("has_more", JBool true)]).
  vm_compute. reflexivity.
Defined.

(** A dict without (truthy) faces never makes the normalizer raise: every
    field comes from the top level, [has_multiple_faces] is false and
    [card_faces] is null. *)
Theorem normalize_card_single_faced :
  forall (kv : list (string * json)),
    truthy (kv_get kv "card_faces" JNull) = false ->
    normalize_card (JObj kv) =
      Ok (JObj [("id", kv_get kv "id" JNull);
                ("name", kv_get kv "name" JNull);
                ("mana_cost", kv_get kv "mana_cost" JNull);
                ("type_line", kv_get kv "type_line" JNull);
                ("oracle_text", kv_get kv "oracle_text" JNull);
                ("power", kv_get kv "power" JNull);
                ("toughness", kv_get kv "toughness" JNull);
                ("colors", kv_get kv "colors" (JArr []));
                ("rarity", kv_get kv "rarity" JNull);
                ("set_name", kv_get kv "set_name" JNull);
                ("collector_number", kv_get kv "collector_number" JNull);
                ("image_uris", kv_get kv "image_uris" (JObj []));
                ("scryfall_uri", kv_get kv "scryfall_uri" JNull);
                ("prices", kv_get kv "prices" (JObj []));
                ("has_multiple_faces", JBool false);
                ("card_faces", JNull)]).
Proof. intros kv H. unfold normalize_card. simpl. rewrite H. reflexivity. Qed.

Lemma normalize_card_single_faced_witness :
  field (res_out (normalize_card (printing_card "p1" "2020-01-01"))) "has_multiple_faces" = Some (JBool false).
Proof.
  unfold printing_card.
  rewrite (normalize_card_single_faced [("id", JStr "p1"); ("name", JStr "Lightning Bolt"); ("released_at", JStr "2020-01-01")])
    by reflexivity.
  reflexivity.
Defined.

(** For a dict whose faces list starts with a dict, normalization raises
    exactly when the second entry is truthy but not a dict. *)
Theorem normalize_card_faces_error_iff :
  forall (kv f : list (string * json)) (rest : list json),
    lookup_kv "card_faces" kv = Some (JArr (JObj f :: rest)) ->
    ((exists e, normalize_card (JObj kv) = Err e) <->
     (exists x rest', rest = x :: rest' /\ truthy x = true /\ forall b, x <> JObj b)).
Proof.
  intros kv f rest L. unfold normalize_card. simpl.
  rewrite (kv_get_some _ _ _ JNull L). simpl.
  rewrite (kv_get_some _ _ _ (JArr []) L). simpl.
  repeat match goal with
  | |- context [truthy (kv_get f ?k ?d)] => destruct (truthy (kv_get f k d))
  end.
  all: destruct rest as [|x rest']; simpl;
    [split; [intros [e He]; discriminate | intros [x' [r [E _]]]; discriminate] |].
  all: destruct x as [|[]|z|s|[|y l]|[|p b]]; simpl;
    try (destruct (Z.eqb z 0) eqn:Ez); try (destruct (String.eqb s EmptyString) eqn:Es); simpl.
  all: split;
    [ intros [e He];
      first [ discriminate
            | do 2 eexists; split; [reflexivity | split; [simpl; rewrite ?Ez, ?Es; reflexivity
                                                    | intros ? ?; discriminate]] ]
    | intros [x' [r [E [Ht Hn]]]]; injection E as E1 _; subst x'; simpl in Ht;
      first [ eexists; reflexivity
            | rewrite ?Ez, ?Es in Ht; discriminate
            | exfalso; eapply Hn; reflexivity ] ].
Qed.

Lemma normalize_card_faces_error_iff_witness :
  lookup_kv "card_faces" [("card_faces", JArr [JObj [("name", JStr "A")]; JStr "x"])]
    = Some (JArr [JObj [("name", JStr "A")]; JStr "x"]) /\
  exists e, normalize_card (JObj [("card_faces", JArr [JObj [("name", JStr "A")]; JStr "x"])]) = Err e.
Proof.
  split; [reflexivity|].
  apply (proj2 (normalize_card_faces_error_iff
                  [("card_faces", JArr [JObj [("name", JStr "A")]; JStr "x"])]
                  [("name", JStr "A")] [JStr "x"] eq_refl)).
  exists (JStr "x"), []. split; [reflexivity|]. split; [reflexivity|]. intros b; discriminate.
Defined.

(** ** Printings: image selection, date order, totals *)

(** The [printing_info] dict built from a raw card [kv], with the chosen
    front and back image dicts. *)
Definition printing_obj (kv : list (string * json)) (iu biu : json) : json :=
  JObj [("id", kv_get kv "id" JNull);
        ("name", kv_get kv "name" JNull);
        ("set_name", kv_get kv "set_name" JNull);
        ("set_code", kv_get kv "set" JNull);
        ("collector_number", kv_get kv "collector_number" JNull);
        ("released_at", kv_get kv "released_at" JNull);
        ("rarity", kv_get kv "rarity" JNull);
        ("artist", kv_get kv "artist" JNull);
        ("flavor_text", kv_get kv "flavor_text" JNull);
        ("image_uris", iu);
        ("back_image_uris", pick biu JNull);
        ("prices", kv_get kv "prices" (JObj []));
        ("scryfall_uri", kv_get kv "scryfall_uri" JNull)].

Lemma printing_info_shape (x p : json) :
  printing_info x = Ok p -> exists kv iu biu, x = JObj kv /\ p = printing_obj kv iu biu.
Proof.
  destruct x as [| | | | |kv]; try (intros H; discriminate H).
  unfold printing_info. cbn [dget bind].
  match goal with |- bind ?u _ = _ -> _ => destruct u as [[iu biu]|e] end; cbn [bind];
    [|discriminate].
  intros H. injection H as <-. exists kv, iu, biu. split; reflexivity.
Qed.

(** A truthy top-level [image_uris] is kept as is and the faces are never
    read: [back_image_uris] is null. *)
Lemma printing_info_top_image (kv : list (string * json)) :
  truthy (kv_get kv "image_uris" (JObj [])) = true ->
  printing_info (JObj kv) = Ok (printing_obj kv (kv_get kv "image_uris" (JObj [])) (JObj [])).
Proof. intros H. unfold printing_info. cbn [dget bind]. rewrite H. reflexivity. Qed.

(** Without a top-level image, a faces list that starts with a dict gives
    the front face's [image_uris] and the second dict's (null when empty). *)
Lemma printing_info_faces (kv f : list (string * json)) (rest : list json) :
  truthy (kv_get kv "image_uris" (JObj [])) = false ->
  lookup_kv "card_faces" kv = Some (JArr (JObj f :: rest)) ->
  (rest = [] \/ exists b rest', rest = JObj b :: rest') ->
  printing_info (JObj kv) =
    Ok (printing_obj kv (kv_get f "image_uris" (JObj []))
          (match rest with JObj b :: _ => kv_get b "image_uris" (JObj []) | _ => JObj [] end)).
Proof.
  intros Hi L Hr. unfold printing_info. cbn [dget bind].
  rewrite Hi, (kv_get_some _ _ _ JNull L), (kv_get_some _ _ _ (JArr []) L). cbn.
  destruct Hr as [->|(b & rest' & ->)]; cbn; [reflexivity|].
  destruct b; reflexivity.
Qed.

Lemma printing_info_top_image_witness :
  truthy (kv_get [("image_uris", JObj [("normal", JStr "u")])] "image_uris" (JObj [])) = true /\
  printing_info (JObj [("image_uris", JObj [("normal", JStr "u")])]) =
    Ok (printing_obj [("image_uris", JObj [("normal", JStr "u")])] (JObj [("normal", JStr "u")]) (JObj [])).
Proof. split; [reflexivity | apply printing_info_top_image; reflexivity]. Defined.

Lemma printing_info_faces_witness :
  let kv := [("card_faces", JArr [JObj [("image_uris", JStr "f")]; JObj [("image_uris", JStr "b")]])] in
  truthy (kv_get kv "image_uris" (JObj [])) = false /\
  printing_info (JObj kv) = Ok (printing_obj kv (JStr "f") (JStr "b")).
Proof.
  intros kv. split; [reflexivity|].
  apply (printing_info_faces kv [("image_uris", JStr "f")] [JObj [("image_uris", JStr "b")]]);
    [reflexivity | reflexivity | right; exists [("image_uris", JStr "b")], []; reflexivity].
Defined.

(** The sort key of a printing when it is a string ([""] when absent). *)
Definition date_of (x : json) : string :=
  match x with
  | JObj kv => match kv_get kv "released_at" (JStr "") with JStr s => s | _ => "" end
  | _ => ""
  end.

Definition str_dated (x : json) : Prop :=
  exists kv s, x = JObj kv /\ kv_get kv "released_at" (JStr "") = JStr s.

Definition not_older (x y : json) : Prop := String.ltb (date_of x) (date_of y) = false.

Lemma string_ltb_asym (s t : string) : String.ltb s t = true -> String.ltb t s = false.
Proof.
  unfold String.ltb. rewrite (String.compare_antisym t s).
  destruct (String.compare s t); simpl; congruence.
Qed.

Lemma released_key_dated (x : json) : str_dated x -> released_key x = Ok (JStr (date_of x)).
Proof. intros (kv & s & -> & H). unfold released_key, dget, date_of. rewrite H. reflexivity. Qed.

Lemma insert_desc_ok (x : json) (ys : list json) :
  str_dated x -> Forall str_dated ys -> Sorted not_older ys ->
  exists r, insert_desc x ys = Ok r /\ Permutation (x :: ys) r /\ Sorted not_older r /\
    (forall y, not_older y x -> HdRel not_older y ys -> HdRel not_older y r).
Proof.
  intros Hx. induction ys as [|y ys IH]; intros Hys Hs.
  - exists [x]. split; [reflexivity|]. split; [reflexivity|]. split; [auto|].
    intros y Hyx _. constructor. exact Hyx.
  - inversion Hys as [|? ? Hy Hys']; subst. inversion Hs as [|? ? Hs' Hhd]; subst.
    cbn [insert_desc]. rewrite (released_key_dated x Hx), (released_key_dated y Hy).
    cbn [bind py_lt].
    destruct (String.ltb (date_of x) (date_of y)) eqn:E.
    + destruct (IH Hys' Hs') as (r & Hr & Hp & Hsr & Hh). rewrite Hr. cbn [bind].
      exists (y :: r). split; [reflexivity|]. split.
      * eapply perm_trans; [apply perm_swap | apply perm_skip; exact Hp].
      * split.
        -- constructor; [exact Hsr | apply Hh; [apply string_ltb_asym; exact E | exact Hhd]].
        -- intros z _ Hz. inversion Hz; subst. constructor. assumption.
    + exists (x :: y :: ys). split; [reflexivity|]. split; [reflexivity|]. split.
      * constructor; [exact Hs | constructor; exact E].
      * intros z Hzx _. constructor. exact Hzx.
Qed.

Theorem sort_desc_sorted (l : list json) :
  Forall str_dated l ->
  exists l', sort_desc l = Ok l' /\ Permutation l l' /\ Sorted not_older l'.
Proof.
  induction l as [|x l IH]; intros H.
  - exists []. split; [reflexivity|]. split; auto.
  - inversion H as [|? ? Hx Hl]; subst.
    destruct (IH Hl) as (s & Hs & Hp & Hss). cbn [sort_desc]. rewrite Hs. cbn [bind].
    assert (Hfs : Forall str_dated s) by (eapply Permutation_Forall; eassumption).
    destruct (insert_desc_ok x s Hx Hfs Hss) as (r & Hr & Hpr & Hsr & _).
    exists r. split; [exact Hr|]. split; [|exact Hsr].
    eapply perm_trans; [apply perm_skip; exact Hp | exact Hpr].
Qed.

Lemma string_ltb_empty (s : string) : String.ltb "" s = false -> s = "".
Proof. destruct s; [reflexivity | discriminate]. Qed.

Lemma sorted_undated_tail (post : list json) (x : json) :
  Sorted not_older (x :: post) -> date_of x = "" -> Forall (fun y => date_of y = "") post.
Proof.
  revert x. induction post as [|y post IH]; intros x H Hx; [constructor|].
  apply Sorted_inv in H. destruct H as [H Hd]. inversion Hd as [|? ? Hxy]; subst.
  unfold not_older in Hxy. rewrite Hx in Hxy. apply string_ltb_empty in Hxy.
  constructor; [exact Hxy | exact (IH y H Hxy)].
Qed.

Lemma sorted_app_r (pre post : list json) :
  Sorted not_older (pre ++ post) -> Sorted not_older post.
Proof.
  induction pre as [|a pre IH]; intros H; [exact H|].
  apply IH. apply Sorted_inv in H. exact (proj1 H).
Qed.

(** When every sort key is a string, sorting succeeds, keeps the records,
    orders them newest first and puts undated records last. *)
Theorem sort_desc_newest_first (l : list json) :
  Forall str_dated l ->
  exists l', sort_desc l = Ok l' /\ Permutation l l' /\ Sorted not_older l' /\
    (forall pre x post, l' = app pre (x :: post) -> date_of x = "" ->
       Forall (fun y => date_of y = "") post).
Proof.
  intros H. destruct (sort_desc_sorted l H) as (l' & Hs & Hp & Hso).
  exists l'. split; [exact Hs|]. split; [exact Hp|]. split; [exact Hso|].
  intros pre x post -> Hx. apply sorted_app_r in Hso. exact (sorted_undated_tail post x Hso Hx).
Qed.

Lemma sort_desc_newest_first_witness :
  Forall str_dated [printing_card "p1" "2020-01-01"; printing_card "p2" ""; printing_card "p3" "2023-05-01"] /\
  exists l', sort_desc [printing_card "p1" "2020-01-01"; printing_card "p2" ""; printing_card "p3" "2023-05-01"] = Ok l' /\
    Permutation [printing_card "p1" "2020-01-01"; printing_card "p2" ""; printing_card "p3" "2023-05-01"] l' /\
    Sorted not_older l' /\
    (forall pre x post, l' = app pre (x :: post) -> date_of x = "" -> Forall (fun y => date_of y = "") post).
Proof.
  assert (F : Forall str_dated [printing_card "p1" "2020-01-01"; printing_card "p2" ""; printing_card "p3" "2023-05-01"]).
  { repeat constructor; eexists _, _; split; reflexivity. }
  split; [exact F | apply sort_desc_newest_first; exact F].
Defined.

Lemma map_m_ok {A B} (f : A -> res B) (l : list A) :
  Forall (fun x => exists y, f x = Ok y) l ->
  exists l', map_m f l = Ok l' /\ Forall2 (fun x y => f x = Ok y) l l'.
Proof.
  induction l as [|x l IH]; intros H.
  - exists []. split; [reflexivity | constructor].
  - inversion H as [|? ? (y & Hy) Hl]; subst.
    destruct (IH Hl) as (l' & Hm & Hf). exists (y :: l'). cbn [map_m]. rewrite Hy. cbn [bind].
    rewrite Hm. split; [reflexivity | constructor; assumption].
Qed.

Lemma printing_info_dated (x p : json) :
  (exists kv s, x = JObj kv /\ lookup_kv "released_at" kv = Some (JStr s)) ->
  printing_info x = Ok p -> str_dated p.
Proof.
  intros (kv & s & -> & L) H. apply printing_info_shape in H.
  destruct H as (kv' & iu & biu & E & ->). injection E as <-.
  exists (match printing_obj kv iu biu with JObj o => o | _ => [] end), s.
  split; [reflexivity|]. cbn. apply kv_get_some. exact L.
Qed.

Lemma forall2_dated (items ps : list json) :
  Forall (fun x => exists kv s, x = JObj kv /\ lookup_kv "released_at" kv = Some (JStr s)) items ->
  Forall2 (fun x y => printing_info x = Ok y) items ps -> Forall str_dated ps.
Proof.
  intros H H2. induction H2 as [|x p items ps Hxp _ IH]; [constructor|].
  inversion H; subst. constructor; [eapply printing_info_dated; eassumption | auto].
Qed.

(** For a list of convertible, dated records, the result holds every
    printing in date order and [total_printings] is the number of records. *)
Theorem printings_result_sorted_total (card_name : string) (d : list (string * json)) (items : list json) :
  lookup_kv "data" d = Some (JArr items) ->
  Forall (fun x => exists p, printing_info x = Ok p) items ->
  Forall (fun x => exists kv s, x = JObj kv /\ lookup_kv "released_at" kv = Some (JStr s)) items ->
  exists ps sorted,
    map_m printing_info items = Ok ps /\ Permutation ps sorted /\ Sorted not_older sorted /\
    printings_result card_name (JObj d) =
      Ok (JObj [("data", JArr sorted);
                ("total_printings", JNum (Z.of_nat (List.length items)));
                ("card_name", JStr card_name)]).
Proof.
  intros L Hok Hd. destruct (map_m_ok printing_info items Hok) as (ps & Hm & H2).
  destruct (sort_desc_sorted ps (forall2_dated items ps Hd H2)) as (sorted & Hs & Hp & Hso).
  exists ps, sorted. split; [exact Hm|]. split; [exact Hp|]. split; [exact Hso|].
  unfold printings_result. cbn [dget]. rewrite (kv_get_some _ _ _ (JArr []) L). cbn [bind py_iter].
  rewrite Hm. cbn [bind]. rewrite Hs. cbn [bind].
  rewrite <- (Permutation_length Hp), (map_m_length _ _ _ Hm). reflexivity.
Qed.

Lemma printings_result_sorted_total_witness :
  let d := [("data", JArr [printing_card "p1" "2020-01-01"; printing_card "p2" "2023-05-01"])] in
  lookup_kv "data" d = Some (JArr [printing_card "p1" "2020-01-01"; printing_card "p2" "2023-05-01"]) /\
  exists ps sorted,
    map_m printing_info [printing_card "p1" "2020-01-01"; printing_card "p2" "2023-05-01"] = Ok ps /\
    Permutation ps sorted /\ Sorted not_older sorted /\
    printings_result "Lightning Bolt" (JObj d) =
      Ok (JObj [("data", JArr sorted); ("total_printings", JNum 2); ("card_name", JStr "Lightning Bolt")]).
Proof.
  intros d. split; [reflexivity|].
  apply (printings_result_sorted_total "Lightning Bolt" d
           [printing_card "p1" "2020-01-01"; printing_card "p2" "2023-05-01"]);
    [reflexivity
    | repeat constructor; eexists; reflexivity
    | repeat constructor; eexists _, _; split; reflexivity].
Defined.
